(** * Evgya/anime-analysis: the catalog query client and the chart helpers

    A shallow embedding of [scripts/anime_query.py] and of the data
    preparation done by [scripts/visualization.py], with the properties
    stated about them.

    - [Py]       the Python values a decoded JSON body is made of, with the
                 exceptions that subscripting, iterating and joining raise;
    - [Query]    class [AnimeDetailsQuery]: a state-and-exception monad over
                 the client object and the log of requests sent;
    - [Charts]   the numbers computed by [plot_donut_chart], [plot_bar],
                 [plot_horizontal_bar] and [plot_word_cloud] before they are
                 handed to the drawing libraries, and
                 [plot_correlation_matrix] over the two library calls it
                 consists of;
    - [Pandas]   [DataFrame.corr] as pandas documents it. *)

From Stdlib Require Import ZArith QArith Qabs Floats.
From stdpp Require Import base tactics option list strings gmap sorting pretty.

Local Open Scope string_scope.
Local Open Scope Z_scope.
Local Open Scope list_scope.

(* ===================================================================== *)
(** ** Python values and exceptions                                       *)
(* ===================================================================== *)

Module Py.

(** What [json.loads] builds.  A [dict] keeps its items in insertion order
    (iteration over it is observable in [get_anime_genres]), so it is an
    association list; its keys are strings, as in every JSON object.  A
    float is carried as its binary64 bit pattern: no operation of the client
    looks inside one. *)
#[warnings="-register-all"] Inductive pyval : Type :=
  | PyNone
  | PyBool (b : bool)
  | PyInt (n : Z)
  | PyFloat (bits : Z)
  | PyStr (s : string)
  | PyList (l : list pyval)
  | PyDict (items : list (string * pyval)).

(** The exceptions that can occur in the client.  [JSONDecodeError] is what
    [Response.json()] raises on a body that is not JSON (a [ValueError]);
    [ConnectionError] stands for every fault raised by [requests.get];
    [ValueError] is raised by [max] on an empty sequence. *)
Inductive exn : Type :=
  | KeyError
  | IndexError
  | TypeError
  | ValueError
  | JSONDecodeError
  | ConnectionError.

Inductive result (A : Type) : Type :=
  | Ok (a : A)
  | Raise (e : exn).
Arguments Ok {A} a.
Arguments Raise {A} e.

(** [d[k]] on the items of a dict. *)
Fixpoint dict_get (k : string) (items : list (string * pyval)) : option pyval :=
  match items with
  | [] => None
  | (k', v) :: rest => if String.eqb k k' then Some v else dict_get k rest
  end.

(** The characters of a string, each as a string of length one. *)
Fixpoint chars (s : string) : list string :=
  match s with
  | EmptyString => []
  | String c rest => String c EmptyString :: chars rest
  end.

(** [seq[i]] for a Python sequence: a negative index counts from the end,
    an index out of range raises [IndexError]. *)
Definition seq_index {A} (l : list A) (i : Z) : result A :=
  let n := Z.of_nat (length l) in
  let j := if i <? 0 then i + n else i in
  if (0 <=? j) && (j <? n) then
    match nth_error l (Z.to_nat j) with
    | Some x => Ok x
    | None => Raise IndexError
    end
  else Raise IndexError.

(** [v[k]] with a string subscript [k]. *)
Definition getitem_str (v : pyval) (k : string) : result pyval :=
  match v with
  | PyDict items =>
      match dict_get k items with
      | Some x => Ok x
      | None => Raise KeyError
      end
  | _ => Raise TypeError
  end.

(** [v[i]] with an integer subscript [i].  No key of a decoded JSON object
    equals an integer, so a dict raises [KeyError]. *)
Definition getitem_int (v : pyval) (i : Z) : result pyval :=
  match v with
  | PyList l => seq_index l i
  | PyStr s =>
      match seq_index (chars s) i with
      | Ok c => Ok (PyStr c)
      | Raise e => Raise e
      end
  | PyDict _ => Raise KeyError
  | _ => Raise TypeError
  end.

(** [iter(v)], run to its end: the elements of a list, the characters of a
    string, the keys of a dict; nothing else here is iterable. *)
Definition iterate (v : pyval) : result (list pyval) :=
  match v with
  | PyList l => Ok l
  | PyStr s => Ok (PyStr <$> chars s)
  | PyDict items => Ok ((λ kv, PyStr kv.1) <$> items)
  | _ => Raise TypeError
  end.

(** [[f(x) for x in xs]]: the first exception ends the comprehension. *)
Fixpoint comprehension {A B} (f : A → result B) (xs : list A) : result (list B) :=
  match xs with
  | [] => Ok []
  | x :: rest =>
      match f x with
      | Raise e => Raise e
      | Ok y =>
          match comprehension f rest with
          | Raise e => Raise e
          | Ok ys => Ok (y :: ys)
          end
      end
  end.

Definition as_str (v : pyval) : result string :=
  match v with
  | PyStr s => Ok s
  | _ => Raise TypeError
  end.

(** [sep.join(xs)]: every item has to be a [str]. *)
Definition str_join (sep : string) (xs : list pyval) : result pyval :=
  match comprehension as_str xs with
  | Ok ss => Ok (PyStr (String.concat sep ss))
  | Raise e => Raise e
  end.

End Py.

(* ===================================================================== *)
(** ** [scripts/anime_query.py]: class [AnimeDetailsQuery]                *)
(* ===================================================================== *)

Module Query.
Import Py.

(** One call of [requests.get(url, headers=...)]. *)
Record request : Type := Request {
  url : string;
  req_headers : gmap string string
}.

(** What the client reads of a [requests.Response]: [status_code], and the
    outcome of [json()], [None] when the body does not decode. *)
Record response : Type := Response {
  status_code : Z;
  body : option pyval
}.

(** The parts of the interpreter and of the network the class is run
    against.  [requests_get] answers a request knowing the requests sent
    before it (a server need not answer twice alike) and may raise;
    [format_value] is the conversion an f-string applies to a replacement
    field, [format(v, '')]. *)
Class Runtime : Type := {
  requests_get : list request → request → result response;
  format_value : pyval → string
}.

(** The instance: its only attribute is [headers]. *)
Record AnimeDetailsQuery : Type := { headers : gmap string string }.

(** The state a method runs in: the instance it is called on, and the
    requests sent so far, oldest first. *)
Record world : Type := World {
  self : AnimeDetailsQuery;
  sent : list request
}.

(** Methods: they read and may change the world, and return or raise. *)
Definition M (A : Type) : Type := world → result A * world.

#[export] Instance M_ret : MRet M := λ A a w, (Ok a, w).

#[export] Instance M_bind : MBind M := λ A B k m w,
  match m w with
  | (Ok a, w') => k a w'
  | (Raise e, w') => (Raise e, w')
  end.

Definition lift {A} (r : result A) : M A := λ w, (r, w).

(** [try: body except (classes): handler] *)
Definition try_except {A} (body : M A) (classes : exn → bool) (handler : M A) : M A :=
  λ w, match body w with
       | (Raise e, w') => if classes e then handler w' else (Raise e, w')
       | returned => returned
       end.

(** [self.headers] *)
Definition self_headers : M (gmap string string) := λ w, (Ok (headers (self w)), w).

(** The world once [rq] has gone out. *)
Definition sending (rq : request) (w : world) : world :=
  World (self w) (sent w ++ [rq]).

(** [requests.get(url, headers=h)]: the request goes out, whatever comes
    back. *)
Definition get `{Runtime} (u : string) (h : gmap string string) : M response :=
  λ w, let rq := Request u h in (requests_get (sent w) rq, sending rq w).

(** [response.json()] *)
Definition json (r : response) : result pyval :=
  match body r with
  | Some v => Ok v
  | None => Raise JSONDecodeError
  end.

(** [except (KeyError, IndexError, TypeError)] *)
Definition lookup_errors (e : exn) : bool :=
  match e with
  | KeyError | IndexError | TypeError => true
  | ValueError | JSONDecodeError | ConnectionError => false
  end.

(** [__init__(self, client_id)] *)
Definition init (client_id : string) : AnimeDetailsQuery :=
  {| headers := {[ "X-MAL-CLIENT-ID" := client_id ]} |}.

Definition search_url (name : string) : string :=
  "https://api.myanimelist.net/v2/anime?q=" +:+ name +:+ "&limit=1".

Definition detail_url `{Runtime} (anime_id : pyval) : string :=
  "https://api.myanimelist.net/v2/anime/" +:+ format_value anime_id +:+ "?fields=genres".

(** [response.json()['data'][0]['node'][field]] *)
Definition first_node_field (r : response) (field : string) : result pyval :=
  match json r with
  | Raise e => Raise e
  | Ok j =>
      match getitem_str j "data" with
      | Raise e => Raise e
      | Ok data =>
          match getitem_int data 0 with
          | Raise e => Raise e
          | Ok first =>
              match getitem_str first "node" with
              | Raise e => Raise e
              | Ok node => getitem_str node field
              end
          end
      end
  end.

(** A method whose body ends without [return] returns [None]: the [else]
    branches below. *)
Definition get_anime_id `{Runtime} (name : string) : M pyval :=
  let url := search_url name in
  h ← self_headers;
  response ← get url h;
  if bool_decide (status_code response = 200) then
    try_except (lift (first_node_field response "id")) lookup_errors (mret PyNone)
  else mret PyNone.

Definition get_anime_name `{Runtime} (name : string) : M pyval :=
  let url := search_url name in
  h ← self_headers;
  response ← get url h;
  if bool_decide (status_code response = 200) then
    try_except (lift (first_node_field response "title")) lookup_errors (mret PyNone)
  else mret PyNone.

(** [', '.join([genre['name'] for genre in response.json()['genres']])] *)
Definition joined_genres (r : response) : result pyval :=
  match json r with
  | Raise e => Raise e
  | Ok j =>
      match getitem_str j "genres" with
      | Raise e => Raise e
      | Ok genres =>
          match iterate genres with
          | Raise e => Raise e
          | Ok gs =>
              match comprehension (λ genre, getitem_str genre "name") gs with
              | Raise e => Raise e
              | Ok names => str_join ", " names
              end
          end
      end
  end.

Definition get_anime_genres `{Runtime} (name : string) : M pyval :=
  anime_id ← get_anime_id name;
  match anime_id with
  | PyNone => mret anime_id
  | _ =>
      let url := detail_url anime_id in
      h ← self_headers;
      response ← get url h;
      if bool_decide (status_code response = 200) then
        try_except (lift (joined_genres response)) lookup_errors (mret PyNone)
      else mret PyNone
  end.

(** The requests the methods send from a world [w]. *)
Definition search_request (name : string) (w : world) : request :=
  Request (search_url name) (headers (self w)).

Definition detail_request `{Runtime} (anime_id : pyval) (w : world) : request :=
  Request (detail_url anime_id) (headers (self w)).

(** The [if response.status_code == 200: try: ... except ...: return None]
    the three methods end with, as a function of the response: used to
    state what a method run amounts to. *)
Definition guarded (body : result pyval) : result pyval :=
  match body with
  | Ok v => Ok v
  | Raise e => if lookup_errors e then Ok PyNone else Raise e
  end.

Definition on_search (field : string) (r : response) : result pyval :=
  if bool_decide (status_code r = 200) then guarded (first_node_field r field)
  else Ok PyNone.

Definition on_detail (r : response) : result pyval :=
  if bool_decide (status_code r = 200) then guarded (joined_genres r)
  else Ok PyNone.

(** The three lookups, to run a series of calls on one instance. *)
Inductive call : Type :=
  | CallId (name : string)
  | CallName (name : string)
  | CallGenres (name : string).

Definition perform `{Runtime} (c : call) : M pyval :=
  match c with
  | CallId name => get_anime_id name
  | CallName name => get_anime_name name
  | CallGenres name => get_anime_genres name
  end.

(** A caller that goes on to the next call whether the last one returned or
    raised; the final world is what is left. *)
Fixpoint session `{Runtime} (cs : list call) (w : world) : world :=
  match cs with
  | [] => w
  | c :: rest => session rest (perform c w).2
  end.

End Query.

(* ===================================================================== *)
(** ** Payload shapes                                                     *)
(* ===================================================================== *)

(** The payloads the lookups are written for, told by the fields they read:
    [data[0].node.<field>] of a search response, [genres[*].name] of a
    detail response.  These describe inputs; no method is defined through
    them. *)
Module Shape.
Import Py.

(** An object whose [data] is an array that starts with an object whose
    [node] is an object with the field. *)
Definition has_first_node_field (field : string) (j : pyval) : bool :=
  match j with
  | PyDict top =>
      match dict_get "data" top with
      | Some (PyList (PyDict first :: _)) =>
          match dict_get "node" first with
          | Some (PyDict node) => bool_decide (is_Some (dict_get field node))
          | _ => false
          end
      | _ => false
      end
  | _ => false
  end.

(** An object with a string under [name]. *)
Definition is_named (g : pyval) : bool :=
  match g with
  | PyDict fields =>
      match dict_get "name" fields with
      | Some (PyStr _) => true
      | _ => false
      end
  | _ => false
  end.

(** An object whose [genres] is an array of named objects. *)
Definition has_genre_names (j : pyval) : bool :=
  match j with
  | PyDict top =>
      match dict_get "genres" top with
      | Some (PyList gs) => forallb is_named gs
      | _ => false
      end
  | _ => false
  end.

(** An object whose [genres] is not an array and still has nothing to
    iterate over: the empty string or the empty object. *)
Definition has_void_genres (j : pyval) : bool :=
  match j with
  | PyDict top =>
      match dict_get "genres" top with
      | Some (PyStr "") | Some (PyDict []) => true
      | _ => false
      end
  | _ => false
  end.

End Shape.

(* ===================================================================== *)
(** ** [scripts/visualization.py]: what the charts are drawn from         *)
(* ===================================================================== *)

Module Charts.
Import Py.

(** A cell is [None] when pandas counts it as missing (NaN, None, NaT). *)
Inductive cell : Type :=
  | Num (q : Q)
  | Text (s : string).

(** A [DataFrame]: its row labels and its named columns.  In a frame every
    column has one cell per row ([well_formed]). *)
Record DataFrame : Type := {
  index : list Z;
  columns : list (string * list (option cell))
}.

Definition well_formed (df : DataFrame) : Prop :=
  Forall (λ c, length c.2 = length (index df)) (columns df).

(** [len(df)] *)
Definition len (df : DataFrame) : Z := Z.of_nat (length (index df)).

(** [df[column]] where the labels of the columns are distinct: the column
    of that name, [KeyError] when there is none.  (Under a repeated label
    pandas selects a frame of all the columns that carry it, which this
    lookup does not describe; what is proved about it below assumes
    distinct labels.) *)
Fixpoint find_column (column : string) (cs : list (string * list (option cell)))
  : result (list (option cell)) :=
  match cs with
  | [] => Raise KeyError
  | (name, c) :: rest => if String.eqb column name then Ok c else find_column column rest
  end.

(** [.isna()] and the [.sum()] of the booleans it gives. *)
Definition isna {A} (c : list (option A)) : list bool :=
  (λ x, match x with None => true | Some _ => false end) <$> c.

Definition sum_bool (bs : list bool) : Z :=
  foldr (λ (b : bool) acc, (if b then 1 else 0) + acc) 0 bs.

(** The arguments [plot_donut_chart] passes to [ax.pie], the literals of
    [explode] as they are written, and the title it sets.  The model ends
    where [ax.pie] is called: [Ok p] says that [ax.pie] is called with [p],
    not that matplotlib accepts it (it refuses, for one, sizes that are all
    zero); [Raise] is an exception raised before that call. *)
Record pie : Type := {
  sizes : list Z;
  explode : list Q;
  labels : list string;
  colors : list string;
  pie_title : string
}.

Definition plot_donut_chart (df : DataFrame) (column : string) : result pie :=
  match find_column column (columns df) with
  | Raise e => Raise e
  | Ok c =>
      let missing_values := isna c in
      let missing_count := sum_bool missing_values in
      let filled_count := len df - missing_count in
      Ok {| sizes := [missing_count; filled_count];
            explode := [(1 # 10)%Q; 0%Q];
            labels := ["Пропуски"; "Заполненные значения"];
            colors := ["#ff9999"; "#66b3ff"];
            pie_title := column |}
  end.

(** A [Series] of counts: labels with their values, in row order. *)
Definition Series : Type := list (string * Z).

(** Counting as pandas' hash table does it: a label enters at its first
    occurrence, later occurrences add one to its count. *)
Fixpoint bump (v : string) (t : Series) : Series :=
  match t with
  | [] => [(v, 1)]
  | (k, n) :: rest => if String.eqb v k then (k, n + 1) :: rest else (k, n) :: bump v rest
  end.

Definition tally (vs : list string) : Series := foldl (λ t v, bump v t) [] vs.

(** Missing values are not counted ([dropna=True]). *)
Definition dropna {A} (c : list (option A)) : list A := omap id c.

(** The order [sort_values(ascending=False)] establishes.  Which of two
    labels with equal counts comes first is left to the sort (pandas sorts
    with quicksort here); nothing below depends on it. *)
Definition desc (x y : string * Z) : Prop := y.2 ≤ x.2.

#[export] Instance desc_dec : RelDecision desc := λ x y, decide (y.2 ≤ x.2).

Definition sort_values_desc (s : Series) : Series := merge_sort desc s.

(** [column.value_counts()]: sorted by count, largest first. *)
Definition value_counts (column : list (option string)) : Series :=
  sort_values_desc (tally (dropna column)).

(** [s.head(n)]: the first [n] rows; all but the last [-n] when [n < 0]. *)
Definition head (n : Z) (s : Series) : Series :=
  if 0 <=? n then take (Z.to_nat n) s
  else take (length s - Z.to_nat (- n)) s.

(** [s[n:]]: positional, a negative [n] counts from the end. *)
Definition slice_from (n : Z) (s : Series) : Series :=
  if 0 <=? n then drop (Z.to_nat n) s
  else drop (length s - Z.to_nat (- n)) s.

(** [s.sum()] *)
Definition series_sum (s : Series) : Z := foldr (λ kv acc, kv.2 + acc) 0 s.

(** [s[label] = v]: the row with this label is overwritten; a new label is
    appended. *)
Fixpoint setitem (label : string) (v : Z) (s : Series) : Series :=
  match s with
  | [] => [(label, v)]
  | (k, n) :: rest =>
      if String.eqb label k then (k, v) :: rest else (k, n) :: setitem label v rest
  end.

(** Lines 73 to 80 of [plot_bar], the same as 139 to 147 of
    [plot_horizontal_bar]. *)
Definition top_categories (column : list (option string)) (limit : Z) : Series :=
  let type_counts := sort_values_desc (value_counts column) in
  let top := head limit type_counts in
  if Z.of_nat (length type_counts) >? limit then
    let other_count := series_sum (slice_from limit type_counts) in
    setitem "Other" other_count top
  else top.

(** An [int64] count as a [float64]; exact below [2^53]. *)
Definition to_float (n : Z) : float :=
  if n <? 0 then PrimFloat.opp (PrimFloat.of_uint63 (Uint63.of_Z (- n)))
  else PrimFloat.of_uint63 (Uint63.of_Z n).

(** [(value/total)*100], in binary64 as numpy evaluates it. *)
Definition share64 (value total : Z) : float :=
  PrimFloat.mul (PrimFloat.div (to_float value) (to_float total)) (to_float 100).

(** The same share as an exact fraction: what the annotation stands for. *)
Definition share (value total : Z) : Q := ((inject_Z value / inject_Z total) * 100)%Q.

(** The integer nearest to [q], the even one of two equally near. *)
Definition round_half_even (q : Q) : Z :=
  let n := Qnum q in
  let d := Z.pos (Qden q) in
  let fl := n `div` d in
  let twice := 2 * (n `mod` d) in
  if twice <? d then fl
  else if d <? twice then fl + 1
  else if Z.even fl then fl else fl + 1.

(** The number [m * 2^e]. *)
Definition dyadic (m : positive) (e : Z) : Q :=
  match e with
  | Z0 => Z.pos m # 1
  | Z.pos p => Z.pos (m * 2 ^ p) # 1
  | Z.neg p => Z.pos m # 2 ^ p
  end.

(** The number a finite float is; [0] for the others. *)
Definition float_value (x : float) : Q :=
  match Prim2SF x with
  | S754_finite s m e => if s then (- dyadic m e)%Q else dyadic m e
  | _ => 0%Q
  end.

(** [format(x, '.0f')]: the float rounded to an integer on its exact value,
    with its sign. *)
Definition format_0f (x : float) : string :=
  let signed (s : bool) (digits : string) := if s then "-" +:+ digits else digits in
  match Prim2SF x with
  | S754_nan => "nan"
  | S754_infinity s => signed s "inf"
  | S754_zero s => signed s "0"
  | S754_finite s m e => signed s (pretty (round_half_even (dyadic m e)))
  end.

(** [f'{(value/total)*100:.0f}%'] *)
Definition percent_label (value total : Z) : string :=
  format_0f (share64 value total) +:+ "%".

(** One [plt.text(x, y, s)].  The positions are a bar index and a count
    plus 0.5, both exact in binary64. *)
Record text : Type := Text_at { text_x : Q; text_y : Q; text_s : string }.

(** [max(s)] over the values of a series. *)
Definition series_max (s : Series) : result Z :=
  match s with
  | [] => Raise ValueError
  | (_, n) :: rest => Ok (foldl (λ m kv, Z.max m kv.2) n rest)
  end.

(** What a bar chart is drawn from: the bars in drawing order, the
    annotations, and the upper limit of the count axis. *)
Record bars : Type := {
  categories : Series;
  annotations : list text;
  bars_title : string;
  count_axis_max : Z
}.

Definition half : Q := (1 # 2)%Q.

(** [plot_bar]: [sns.barplot] is given the table and draws it in index
    order; then one [plt.text] per bar, at the bar's index and just above
    its count; then [plt.ylim(0, max(top_categories) + 40)].  The seaborn
    and matplotlib calls themselves are taken to return. *)
Definition plot_bar (column : list (option string)) (title : string) (limit : Z)
  : result bars :=
  let top := top_categories column limit in
  let top_categories_sum := series_sum top in
  let texts :=
    imap (λ i kv, Text_at (inject_Z (Z.of_nat i)) (inject_Z kv.2 + half)%Q
                          (percent_label kv.2 top_categories_sum)) top in
  match series_max top with
  | Raise e => Raise e
  | Ok m => Ok {| categories := top; annotations := texts; bars_title := title;
                  count_axis_max := m + 40 |}
  end.

(** [plot_horizontal_bar]: the same with the two axes exchanged. *)
Definition plot_horizontal_bar (column : list (option string)) (title : string) (limit : Z)
  : result bars :=
  let top := top_categories column limit in
  let total_sum := series_sum top in
  let texts :=
    imap (λ i kv, Text_at (inject_Z kv.2 + half)%Q (inject_Z (Z.of_nat i))
                          (percent_label kv.2 total_sum)) top in
  match series_max top with
  | Raise e => Raise e
  | Ok m => Ok {| categories := top; annotations := texts; bars_title := title;
                  count_axis_max := m + 40 |}
  end.

(** How often [v] occurs in a column, and how many cells are missing. *)
Definition count_of (v : string) (column : list (option string)) : Z :=
  Z.of_nat (length (filter (λ x, x = Some v) column)).

Definition count_missing {A} (column : list (option A)) : Z :=
  Z.of_nat (length (filter (λ x, x = None) column)).

(** [s.get(label, 0)] *)
Fixpoint series_get (label : string) (s : Series) : Z :=
  match s with
  | [] => 0
  | (k, n) :: rest => if String.eqb label k then n else series_get label rest
  end.

(** The table both bar charts start from: line 73, and 139. *)
Definition type_counts (column : list (option string)) : Series :=
  sort_values_desc (value_counts column).

(** How many cells of a column are filled. *)
Definition count_present {A} (column : list (option A)) : Z :=
  Z.of_nat (length (dropna column)).

(** An annotation with its two coordinates exchanged. *)
Definition transpose (t : text) : text := Text_at (text_y t) (text_x t) (text_s t).

(** What [plot_word_cloud] gives to [WordCloud]: the size and background of
    the canvas and, through [generate_from_frequencies], the frequencies;
    and the title it sets.  Drawing the cloud is the library's. *)
Record word_cloud : Type := {
  frequencies : Series;
  cloud_width : Z;
  cloud_height : Z;
  background_color : string;
  cloud_title : string
}.

Definition plot_word_cloud (series : list (option string)) (title : string) : word_cloud :=
  {| frequencies := value_counts series;
     cloud_width := 800;
     cloud_height := 400;
     background_color := "white";
     cloud_title := title |}.

(** What [data.corr()] returns: the labels of the columns correlated, and a
    row of coefficients for each. *)
Record matrix : Type := {
  matrix_labels : list string;
  matrix_values : list (list float)
}.

(** The two library calls [plot_correlation_matrix] consists of:
    [data.corr()] of pandas and
    [sns.heatmap(m, annot=True, cmap='Blues', fmt=".2f", linewidths=.5)] of
    seaborn.  Either may return or raise. *)
Class Libraries : Type := {
  corr : DataFrame → result matrix;
  heatmap : matrix → result unit
}.

(** Lines 199 and 200 ([plt.title] and [plt.show] taken to return).  [Ok m]
    says that the heatmap of [m] was drawn. *)
Definition plot_correlation_matrix `{Libraries} (data : DataFrame) (title : string)
  : result matrix :=
  match corr data with
  | Raise e => Raise e
  | Ok correlation_matrix =>
      match heatmap correlation_matrix with
      | Raise e => Raise e
      | Ok _ => Ok correlation_matrix
      end
  end.

(** A column is numeric when none of its cells is text. *)
Definition numeric (c : list (option cell)) : bool :=
  forallb (λ x, match x with Some (Text _) => false | _ => true end) c.

Definition has_non_numeric (data : DataFrame) : bool :=
  existsb (λ nc, negb (numeric nc.2)) (columns data).

End Charts.

(* ===================================================================== *)
(** ** [DataFrame.corr] as pandas documents it                            *)
(* ===================================================================== *)

(** Pearson's coefficient over the rows in which both cells are filled, and
    the two behaviours pandas has had for columns that are not numeric:
    leaving them out ([numeric_only] in effect, the default before 2.0),
    and raising [ValueError] on them ([numeric_only=False], the default
    since 2.0).  The coefficients are computed in binary64 by the textbook
    formula; no statement below depends on their last bits. *)
Module Pandas.
Import Py Charts.

Definition cell_float (q : Q) : float :=
  PrimFloat.div (to_float (Qnum q)) (to_float (Z.pos (Qden q))).

Definition both_filled (a b : list (option cell)) : list (float * float) :=
  omap (λ xy, match xy with
              | (Some (Num p), Some (Num q)) => Some (cell_float p, cell_float q)
              | _ => None
              end) (zip a b).

Definition fsum (xs : list float) : float := foldl PrimFloat.add PrimFloat.zero xs.

Definition mean (xs : list float) : float :=
  PrimFloat.div (fsum xs) (to_float (Z.of_nat (length xs))).

Definition pearson (a b : list (option cell)) : float :=
  let ps := both_filled a b in
  let mx := mean ps.*1 in
  let my := mean ps.*2 in
  let dx := (λ p, PrimFloat.sub p.1 mx) <$> ps in
  let dy := (λ p, PrimFloat.sub p.2 my) <$> ps in
  let sxy := fsum (zip_with PrimFloat.mul dx dy) in
  let sxx := fsum (zip_with PrimFloat.mul dx dx) in
  let syy := fsum (zip_with PrimFloat.mul dy dy) in
  PrimFloat.div sxy (PrimFloat.sqrt (PrimFloat.mul sxx syy)).

Definition correlations (cs : list (string * list (option cell))) : matrix :=
  {| matrix_labels := cs.*1;
     matrix_values := (λ a, (λ b, pearson a.2 b.2) <$> cs) <$> cs |}.

(** [corr] leaving out the columns that are not numeric. *)
Definition corr_numeric_only (data : DataFrame) : result matrix :=
  Ok (correlations (filter (λ nc, numeric nc.2) (columns data))).

(** [corr] converting every column to floats, which text does not allow. *)
Definition corr_all_columns (data : DataFrame) : result matrix :=
  if has_non_numeric data then Raise ValueError
  else Ok (correlations (columns data)).

End Pandas.

(* ===================================================================== *)
(** ** Concrete runs                                                      *)
(* ===================================================================== *)

Module Fixtures.
Import Py Query Charts.

(** A transport that answers from a table keyed by URL and fails to
    connect to any other URL.  Its [format_value] is Python's on the
    integers and strings it is used on. *)
Fixpoint answer (table : list (string * response)) (u : string) : result response :=
  match table with
  | [] => Raise ConnectionError
  | (u', r) :: rest => if String.eqb u u' then Ok r else answer rest u
  end.

Definition scripted (table : list (string * response)) : Runtime := {|
  requests_get := λ _ rq, answer table (url rq);
  format_value := λ v, match v with
                       | PyInt n => pretty n
                       | PyStr s => s
                       | _ => "None"
                       end
|}.

(** Every request is answered 404, with a JSON error body. *)
Definition not_found : Runtime := {|
  requests_get := λ _ _, Ok (Response 404 (Some (PyDict [("error", PyStr "not_found")])));
  format_value := λ _, "None"
|}.

Definition fresh (client_id : string) : world := World (init client_id) [].

(** A search result and a detail record as the catalog sends them. *)
Definition search_hit : pyval :=
  PyDict [("data", PyList [PyDict [("node",
     PyDict [("id", PyInt 20); ("title", PyStr "Naruto")])]])].

Definition search_empty : pyval := PyDict [("data", PyList [])].

Definition genre (id : Z) (name : string) : pyval :=
  PyDict [("id", PyInt id); ("name", PyStr name)].

Definition detail_three : pyval :=
  PyDict [("id", PyInt 20);
          ("genres", PyList [genre 1 "Action"; genre 2 "Adventure"; genre 10 "Fantasy"])].

Definition search_naruto : string := "https://api.myanimelist.net/v2/anime?q=Naruto&limit=1".
Definition detail_20 : string := "https://api.myanimelist.net/v2/anime/20?fields=genres".

Definition catalog (search detail : response) : Runtime :=
  scripted [(search_naruto, search); (detail_20, detail)].

(** A column with 50 [a], 30 [b], 20 [c], 10 [d], 5 [e] and two gaps. *)
Definition letters : list (option string) :=
  replicate 10 (Some "d") ++ [None] ++ replicate 50 (Some "a") ++ replicate 5 (Some "e")
  ++ replicate 20 (Some "c") ++ [None] ++ replicate 30 (Some "b").

(** Ten rows, three of them without a score. *)
Definition ten_rows : DataFrame := {|
  index := [0; 1; 2; 3; 4; 5; 6; 7; 8; 9];
  columns :=
    [("Name", Some ∘ Text <$> ["a"; "b"; "c"; "d"; "e"; "f"; "g"; "h"; "i"; "j"]);
     ("Score", [Some (Num 8); None; Some (Num 7); Some (Num 9); None;
                Some (Num 6); Some (Num 8); None; Some (Num 5); Some (Num 7)])]
|}.

(** No request gets through. *)
Definition offline : Runtime := scripted [].

(** The search is answered, the detail request is not. *)
Definition search_only (search : response) : Runtime :=
  scripted [(search_naruto, search)].

(** pandas before and since 2.0, with a heatmap that draws what it is
    given; and a heatmap that refuses a matrix without cells. *)
Definition pandas_1 : Libraries :=
  {| corr := Pandas.corr_numeric_only; heatmap := λ _, Ok tt |}.

Definition pandas_2 : Libraries :=
  {| corr := Pandas.corr_all_columns; heatmap := λ _, Ok tt |}.

Definition pandas_1_strict_heatmap : Libraries :=
  {| corr := Pandas.corr_numeric_only;
     heatmap := λ m, match matrix_labels m with
                     | [] => Raise ValueError
                     | _ => Ok tt
                     end |}.

(** A frame of text only. *)
Definition names_only : DataFrame := {|
  index := [0; 1];
  columns := [("Name", [Some (Text "a"); Some (Text "b")])]
|}.

(** A column whose most frequent value is itself called [Other]. *)
Definition with_other : list (option string) :=
  [Some "Other"; Some "x"; Some "Other"; None; Some "y"; Some "x"; Some "Other";
   Some "x"; Some "Other"; Some "Other"].

End Fixtures.

(* ===================================================================== *)
(** ** Subscripts, iteration and [join]: what they raise                  *)
(* ===================================================================== *)

Section PyFacts.
Import Py Query Shape.

Implicit Types (v j : pyval) (e : exn) (k : string).

Lemma seq_index_0_cons {A} (x : A) (l : list A) : seq_index (x :: l) 0 = Ok x.
Proof.
  unfold seq_index. cbn [length nth_error Z.ltb Z.compare Z.to_nat].
  replace (0 <=? 0) with true by reflexivity.
  destruct (Z.ltb_spec 0 (Z.of_nat (S (length l)))) as [_|Hle]; [reflexivity|lia].
Qed.

Lemma seq_index_0_nil {A} : seq_index (@nil A) 0 = Raise IndexError.
Proof. reflexivity. Qed.

Lemma seq_index_raise {A} (l : list A) (i : Z) e :
  seq_index l i = Raise e → e = IndexError.
Proof.
  unfold seq_index. repeat case_match; intros; simplify_eq; reflexivity.
Qed.

Lemma getitem_str_raise v k e : getitem_str v k = Raise e → lookup_errors e = true.
Proof. destruct v; simpl; repeat case_match; intros; simplify_eq; reflexivity. Qed.

Lemma getitem_int_raise v (i : Z) e : getitem_int v i = Raise e → lookup_errors e = true.
Proof.
  destruct v; simpl; intros Hr; simplify_eq; try reflexivity.
  - destruct (seq_index (chars s) i) eqn:Hs; simplify_eq.
    apply seq_index_raise in Hs. subst. reflexivity.
  - apply seq_index_raise in Hr. subst. reflexivity.
Qed.

Lemma iterate_raise v e : iterate v = Raise e → e = TypeError.
Proof. destruct v; simpl; intros; simplify_eq; reflexivity. Qed.

Lemma comprehension_raise {A B} (f : A → result B) (xs : list A) e :
  comprehension f xs = Raise e → ∃ x, x ∈ xs ∧ f x = Raise e.
Proof.
  induction xs as [|x xs IH]; simpl; [discriminate|].
  destruct (f x) eqn:Hx.
  - destruct (comprehension f xs); [discriminate|].
    intros [= ->]. destruct IH as (y & ? & ?); [reflexivity|].
    exists y. split; [by right | done].
  - intros [= ->]. exists x. split; [by left | done].
Qed.

Lemma as_str_raise v e : as_str v = Raise e → e = TypeError.
Proof. destruct v; simpl; intros; simplify_eq; reflexivity. Qed.

Lemma str_join_raise sep (xs : list pyval) e : str_join sep xs = Raise e → e = TypeError.
Proof.
  unfold str_join. destruct (comprehension as_str xs) eqn:Hc; [discriminate|].
  intros [= ->]. apply comprehension_raise in Hc as (x & _ & Hx).
  by apply as_str_raise in Hx.
Qed.

(** [join] never returns [None]. *)
Lemma str_join_ok sep (xs : list pyval) v : str_join sep xs = Ok v → ∃ s, v = PyStr s.
Proof. unfold str_join. destruct (comprehension as_str xs); intros; simplify_eq; eauto. Qed.

End PyFacts.

(* ===================================================================== *)
(** ** The catalog client: what a lookup returns                          *)
(* ===================================================================== *)

Section QueryFacts.
Import Py Query Shape.
Context `{!Runtime}.

Implicit Types (name : string) (w : world) (r : response) (v j : pyval).

Ltac run_search :=
  intros; unfold get_anime_id, get_anime_name, on_search, guarded, mbind, M_bind,
    self_headers, get, try_except, lift, mret, M_ret, search_request; simpl;
  repeat first
    [ progress case_bool_decide
    | match goal with
      | |- context [requests_get ?h ?q] => destruct (requests_get h q)
      | |- context [first_node_field ?r ?f] => destruct (first_node_field r f)
      | |- context [lookup_errors ?e] => destruct (lookup_errors e)
      end ];
  try reflexivity.

Lemma get_anime_id_eq name w :
  get_anime_id name w =
    (match requests_get (sent w) (search_request name w) with
     | Ok r => on_search "id" r
     | Raise e => Raise e
     end, sending (search_request name w) w).
Proof. run_search. Qed.

Lemma get_anime_name_eq name w :
  get_anime_name name w =
    (match requests_get (sent w) (search_request name w) with
     | Ok r => on_search "title" r
     | Raise e => Raise e
     end, sending (search_request name w) w).
Proof. run_search. Qed.

(** A method run from [w] leaves the search request on the log. *)
Lemma get_anime_id_world name w :
  (get_anime_id name w).2 = sending (search_request name w) w.
Proof. by rewrite get_anime_id_eq. Qed.

Ltac run_detail :=
  unfold on_detail, guarded, mbind, M_bind, self_headers, get, try_except, lift,
    mret, M_ret, detail_request; simpl;
  repeat first
    [ progress case_bool_decide
    | match goal with
      | |- context [requests_get ?h ?q] => destruct (requests_get h q)
      | |- context [joined_genres ?r] => destruct (joined_genres r)
      | |- context [lookup_errors ?e] => destruct (lookup_errors e)
      end ];
  try reflexivity.

(** [get_anime_genres] is [get_anime_id], then nothing more if that raised
    or returned [None], and else the detail request. *)
Lemma get_anime_genres_eq name w :
  get_anime_genres name w =
    match get_anime_id name w with
    | (Raise e, w1) => (Raise e, w1)
    | (Ok PyNone, w1) => (Ok PyNone, w1)
    | (Ok anime_id, w1) =>
        (match requests_get (sent w1) (detail_request anime_id w1) with
         | Ok r => on_detail r
         | Raise e => Raise e
         end, sending (detail_request anime_id w1) w1)
    end.
Proof.
  unfold get_anime_genres. unfold mbind at 1. unfold M_bind at 1.
  destruct (get_anime_id name w) as [[anime_id|e] w1]; [|reflexivity].
  destruct anime_id; try reflexivity; run_detail.
Qed.

(** *** The search path *)

Lemma first_node_field_raise r field j e :
  body r = Some j → first_node_field r field = Raise e → lookup_errors e = true.
Proof.
  unfold first_node_field, json. intros ->.
  destruct (getitem_str j "data") as [data|] eqn:H1;
    [|intros [= <-]; eauto using getitem_str_raise].
  destruct (getitem_int data 0) as [first|] eqn:H2;
    [|intros [= <-]; eauto using getitem_int_raise].
  destruct (getitem_str first "node") as [node|] eqn:H3;
    [|intros [= <-]; eauto using getitem_str_raise].
  eauto using getitem_str_raise.
Qed.

Lemma first_node_field_found r field top first rest node v :
  body r = Some (PyDict top) →
  dict_get "data" top = Some (PyList (PyDict first :: rest)) →
  dict_get "node" first = Some (PyDict node) →
  dict_get field node = Some v →
  first_node_field r field = Ok v.
Proof.
  intros Hb Hd Hn Hf. unfold first_node_field, json. rewrite Hb.
  cbn [getitem_str]. rewrite Hd. cbn [getitem_int]. rewrite seq_index_0_cons.
  cbn [getitem_str]. rewrite Hn. cbn [getitem_str]. by rewrite Hf.
Qed.

Lemma first_node_field_no_result r field top :
  body r = Some (PyDict top) →
  dict_get "data" top = Some (PyList []) →
  first_node_field r field = Raise IndexError.
Proof.
  intros Hb Hd. unfold first_node_field, json. rewrite Hb. simpl. by rewrite Hd.
Qed.

(** The path is found in a payload of the expected shape only. *)
Lemma first_node_field_shape r field j v :
  body r = Some j → first_node_field r field = Ok v →
  has_first_node_field field j = true.
Proof.
  unfold first_node_field, json. intros ->.
  destruct j as [| | | | |?|top]; cbn [getitem_str has_first_node_field];
    try discriminate.
  destruct (dict_get "data" top) as [data|]; [|discriminate].
  destruct data as [| | | |s|[|first rest]|?]; cbn [getitem_int]; try discriminate.
  - destruct (seq_index (chars s) 0); discriminate.
  - rewrite seq_index_0_cons.
    destruct first as [| | | | |?|ffields]; cbn [getitem_str]; try discriminate.
    destruct (dict_get "node" ffields) as [node|]; [|discriminate].
    destruct node as [| | | | |?|nfields]; cbn [getitem_str]; try discriminate.
    destruct (dict_get field nfields); [|discriminate].
    intros _. by apply bool_decide_eq_true_2.
Qed.

Lemma on_search_malformed r field j :
  status_code r = 200 → body r = Some j →
  has_first_node_field field j = false →
  on_search field r = Ok PyNone.
Proof.
  intros Hs Hb Hno. unfold on_search. rewrite bool_decide_eq_true_2 by done.
  destruct (first_node_field r field) as [v|e] eqn:Hf; simpl.
  - apply (first_node_field_shape _ _ _ _ Hb) in Hf. congruence.
  - by rewrite (first_node_field_raise _ _ _ _ Hb Hf).
Qed.

Lemma on_search_returns r field j :
  body r = Some j → ∃ v, on_search field r = Ok v.
Proof.
  intros Hb. unfold on_search. case_bool_decide; [|eauto].
  destruct (first_node_field r field) as [v|e] eqn:Hf; simpl; [eauto|].
  rewrite (first_node_field_raise _ _ _ _ Hb Hf). eauto.
Qed.

Lemma on_search_other_status r field :
  status_code r ≠ 200 → on_search field r = Ok PyNone.
Proof. intros Hs. unfold on_search. by rewrite bool_decide_eq_false_2. Qed.

(** *** The detail path *)

Lemma joined_genres_raise r j e :
  body r = Some j → joined_genres r = Raise e → lookup_errors e = true.
Proof.
  unfold joined_genres, json. intros ->.
  destruct (getitem_str j "genres") as [genres|] eqn:H1;
    [|intros [= <-]; eauto using getitem_str_raise].
  destruct (iterate genres) as [gs|] eqn:H2;
    [|intros [= <-]; by apply iterate_raise in H2 as ->].
  destruct (comprehension _ gs) as [names|] eqn:H3.
  - intros Hj. by apply str_join_raise in Hj as ->.
  - intros [= <-]. apply comprehension_raise in H3 as (g & _ & Hg).
    eauto using getitem_str_raise.
Qed.

(** The names of named objects are collected and joined. *)
Lemma named_objects_join sep (gs : list pyval) (names : list string) :
  Forall2 (λ g n, ∃ fields, g = PyDict fields ∧ dict_get "name" fields = Some (PyStr n))
          gs names →
  comprehension (λ genre, getitem_str genre "name") gs = Ok (PyStr <$> names)
  ∧ str_join sep (PyStr <$> names) = Ok (PyStr (String.concat sep names)).
Proof.
  intros Hall. split.
  - induction Hall as [|g n gs names (fields & -> & Hn) _ IH]; [reflexivity|].
    cbn [comprehension getitem_str]. rewrite Hn, IH. reflexivity.
  - unfold str_join.
    assert (comprehension as_str (PyStr <$> names) = Ok names) as ->; [|reflexivity].
    clear Hall. induction names as [|n names IH]; [reflexivity|].
    cbn [fmap list_fmap comprehension as_str]. fold (fmap (M:=list) PyStr names).
    by rewrite IH.
Qed.

Lemma joined_genres_names r top gs names :
  body r = Some (PyDict top) →
  dict_get "genres" top = Some (PyList gs) →
  Forall2 (λ g n, ∃ fields, g = PyDict fields ∧ dict_get "name" fields = Some (PyStr n))
          gs names →
  joined_genres r = Ok (PyStr (String.concat ", " names)).
Proof.
  intros Hb Hg Hall. unfold joined_genres, json. rewrite Hb.
  cbn [getitem_str]. rewrite Hg. cbn [iterate].
  destruct (named_objects_join ", " gs names Hall) as [-> ->]. reflexivity.
Qed.

(** If the names could be collected and joined, every element was a named
    object. *)
Lemma joined_all_named (gs names : list pyval) (ss : list string) :
  comprehension (λ genre, getitem_str genre "name") gs = Ok names →
  comprehension as_str names = Ok ss →
  forallb is_named gs = true.
Proof.
  revert names ss.
  induction gs as [|g gs IH]; intros names ss; [reflexivity|].
  cbn [comprehension forallb].
  destruct (getitem_str g "name") as [n|] eqn:Hg; [|discriminate].
  destruct (comprehension _ gs) as [ns|] eqn:Hc; [|discriminate].
  intros [= <-]. cbn [comprehension].
  destruct (as_str n) as [s|] eqn:Hn; [|discriminate].
  destruct (comprehension as_str ns) as [ss'|] eqn:Hss; [|discriminate].
  intros _. rewrite (IH ns ss') by done. rewrite andb_true_r.
  destruct g; try discriminate. cbn [getitem_str is_named] in *.
  destruct (dict_get "name" items); [|discriminate].
  simplify_eq. destruct n; try discriminate. reflexivity.
Qed.

Lemma joined_genres_shape r j v :
  body r = Some j → joined_genres r = Ok v →
  has_genre_names j = true ∨ has_void_genres j = true.
Proof.
  unfold joined_genres, json. intros ->.
  destruct j as [| | | | |?|top]; cbn [getitem_str has_genre_names has_void_genres];
    try discriminate.
  destruct (dict_get "genres" top) as [genres|]; [|discriminate].
  destruct genres as [| | | |s|gs|fields]; cbn [iterate]; try discriminate.
  - destruct s as [|c s]; [by right|]. discriminate.
  - destruct (comprehension _ gs) as [names|] eqn:Hc; [|discriminate].
    unfold str_join. destruct (comprehension as_str names) as [ss|] eqn:Hs;
      [|discriminate].
    intros _. left. eauto using joined_all_named.
  - destruct fields as [|[k x] fields]; [by right|]. discriminate.
Qed.

Lemma joined_genres_str r v : joined_genres r = Ok v → ∃ s, v = PyStr s.
Proof.
  unfold joined_genres. repeat case_match; try discriminate. apply str_join_ok.
Qed.

Lemma on_detail_malformed r j :
  status_code r = 200 → body r = Some j →
  has_genre_names j = false → has_void_genres j = false →
  on_detail r = Ok PyNone.
Proof.
  intros Hs Hb Hno Hvoid. unfold on_detail. rewrite bool_decide_eq_true_2 by done.
  destruct (joined_genres r) as [v|e] eqn:Hj; simpl.
  - apply (joined_genres_shape _ _ _ Hb) in Hj as [?|?]; congruence.
  - by rewrite (joined_genres_raise _ _ _ Hb Hj).
Qed.

Lemma on_detail_returns r j : body r = Some j → ∃ v, on_detail r = Ok v.
Proof.
  intros Hb. unfold on_detail. case_bool_decide; [|eauto].
  destruct (joined_genres r) as [v|e] eqn:Hj; simpl; [eauto|].
  rewrite (joined_genres_raise _ _ _ Hb Hj). eauto.
Qed.

(** [get_anime_genres] once the identifier is there. *)
Lemma get_anime_genres_detail name w anime_id r :
  (get_anime_id name w).1 = Ok anime_id → anime_id ≠ PyNone →
  requests_get (sent (sending (search_request name w) w))
               (detail_request anime_id (sending (search_request name w) w)) = Ok r →
  get_anime_genres name w =
    (on_detail r,
     sending (detail_request anime_id (sending (search_request name w) w))
             (sending (search_request name w) w)).
Proof.
  intros Hid Hsome Hr. rewrite get_anime_genres_eq.
  pose proof (get_anime_id_world name w) as Hw.
  destruct (get_anime_id name w) as [res w1]. simpl in Hid, Hw. subst res w1.
  rewrite Hr. by destruct anime_id.
Qed.

(** *** The three lookups *)

(** A body that does not decode is not among the cases the [try]
    statements take care of. *)
Lemma undecodable_body_raises name w r :
  requests_get (sent w) (search_request name w) = Ok r →
  status_code r = 200 → body r = None →
  (get_anime_id name w).1 = Raise JSONDecodeError
  ∧ (get_anime_name name w).1 = Raise JSONDecodeError
  ∧ (get_anime_genres name w).1 = Raise JSONDecodeError.
Proof.
  intros Hr Hs Hb.
  assert (∀ field, on_search field r = Raise JSONDecodeError) as Hon.
  { intros field. unfold on_search, first_node_field, json.
    rewrite bool_decide_eq_true_2 by done. by rewrite Hb. }
  rewrite get_anime_genres_eq, get_anime_id_eq, get_anime_name_eq, Hr, !Hon. done.
Qed.

(** C2: when the search request is answered with a status outside 200..299
    (404, say), [get_anime_id], [get_anime_name] and [get_anime_genres] each
    return [None]; none raises, and the search request is the only one
    sent. *)
Theorem not_2xx_gives_None name w r :
  requests_get (sent w) (search_request name w) = Ok r →
  ¬ (200 ≤ status_code r ≤ 299) →
  get_anime_id name w = (Ok PyNone, sending (search_request name w) w)
  ∧ get_anime_name name w = (Ok PyNone, sending (search_request name w) w)
  ∧ get_anime_genres name w = (Ok PyNone, sending (search_request name w) w).
Proof.
  intros Hr Hs. assert (status_code r ≠ 200) as Hne by lia.
  rewrite get_anime_genres_eq, get_anime_id_eq, get_anime_name_eq, Hr.
  rewrite !on_search_other_status by done. done.
Qed.

(** C3: whenever [get_anime_id] returns [None] for a name,
    [get_anime_genres] returns [None] for it in the same final world: the
    log of requests has grown by the search request and by nothing else, so
    one request went out and no detail request did. *)
Theorem genres_short_circuit name w w' :
  get_anime_id name w = (Ok PyNone, w') →
  get_anime_genres name w = (Ok PyNone, w')
  ∧ sent w' = (sent w ++ [search_request name w])%list
  ∧ length (sent w') = S (length (sent w)).
Proof.
  intros Hid. rewrite get_anime_genres_eq, Hid. split; [done|].
  pose proof (get_anime_id_world name w) as Hw. rewrite Hid in Hw. simpl in Hw.
  subst w'. simpl. split; [done|]. rewrite length_app. simpl. lia.
Qed.

(** C4: when the search is answered 200 and the [data] array of the payload
    starts with a result that has an identifier under [node], [get_anime_id]
    returns that identifier, [data[0].node.id]; when the array is empty it
    returns [None]. *)
Theorem get_anime_id_first_result name w r top data :
  requests_get (sent w) (search_request name w) = Ok r →
  status_code r = 200 →
  body r = Some (PyDict top) →
  dict_get "data" top = Some (PyList data) →
  (∀ first rest node v,
      data = PyDict first :: rest →
      dict_get "node" first = Some (PyDict node) →
      dict_get "id" node = Some v →
      get_anime_id name w = (Ok v, sending (search_request name w) w))
  ∧ (data = [] →
      get_anime_id name w = (Ok PyNone, sending (search_request name w) w)).
Proof.
  intros Hr Hs Hb Hd. rewrite get_anime_id_eq, Hr. unfold on_search.
  rewrite bool_decide_eq_true_2 by done. split.
  - intros first rest node v -> Hn Hv.
    by rewrite (first_node_field_found _ _ _ _ _ _ _ Hb Hd Hn Hv).
  - intros ->. by rewrite (first_node_field_no_result _ _ _ Hb Hd).
Qed.

(** C5: when the identifier resolves and the detail request is answered 200
    with a [genres] list of three objects named [A], [B] and [C], in that
    order, [get_anime_genres] returns the one string ["A, B, C"]. *)
Theorem get_anime_genres_joins name w anime_id r top fa fb fc A B C :
  (get_anime_id name w).1 = Ok anime_id → anime_id ≠ PyNone →
  requests_get (sent (sending (search_request name w) w))
               (detail_request anime_id (sending (search_request name w) w)) = Ok r →
  status_code r = 200 →
  body r = Some (PyDict top) →
  dict_get "genres" top = Some (PyList [PyDict fa; PyDict fb; PyDict fc]) →
  dict_get "name" fa = Some (PyStr A) →
  dict_get "name" fb = Some (PyStr B) →
  dict_get "name" fc = Some (PyStr C) →
  (get_anime_genres name w).1 = Ok (PyStr (A +:+ ", " +:+ B +:+ ", " +:+ C)).
Proof.
  intros Hid Hsome Hr Hs Hb Hg Ha Hb' Hc.
  rewrite (get_anime_genres_detail _ _ _ _ Hid Hsome Hr). unfold on_detail. simpl.
  rewrite bool_decide_eq_true_2 by done.
  rewrite (joined_genres_names r top _ [A; B; C] Hb Hg); [reflexivity|].
  repeat constructor; eauto.
Qed.

(** C10: when the identifier resolves and the detail request is answered
    200 with an empty [genres] list, [get_anime_genres] returns the empty
    string, which is a value other than [None]. *)
Theorem no_genres_gives_empty_string name w anime_id r top :
  (get_anime_id name w).1 = Ok anime_id → anime_id ≠ PyNone →
  requests_get (sent (sending (search_request name w) w))
               (detail_request anime_id (sending (search_request name w) w)) = Ok r →
  status_code r = 200 →
  body r = Some (PyDict top) →
  dict_get "genres" top = Some (PyList []) →
  (get_anime_genres name w).1 = Ok (PyStr "") ∧ PyStr "" ≠ PyNone.
Proof.
  intros Hid Hsome Hr Hs Hb Hg. split; [|discriminate].
  rewrite (get_anime_genres_detail _ _ _ _ Hid Hsome Hr). unfold on_detail. simpl.
  rewrite bool_decide_eq_true_2 by done.
  rewrite (joined_genres_names r top _ [] Hb Hg); [reflexivity|constructor].
Qed.

(** *** The instance *)

Lemma perform_self (c : call) w : self (perform c w).2 = self w.
Proof.
  destruct c as [name|name|name]; cbn [perform].
  - by rewrite get_anime_id_world.
  - by rewrite get_anime_name_eq.
  - rewrite get_anime_genres_eq.
    pose proof (get_anime_id_world name w) as Hw.
    destruct (get_anime_id name w) as [[anime_id|e] w1]; simpl in Hw; subst w1;
      [|done].
    by destruct anime_id.
Qed.

Lemma session_self (cs : list call) w : self (session cs w) = self w.
Proof.
  revert w. induction cs as [|c cs IH]; intros w; [done|].
  cbn [session]. by rewrite IH, perform_self.
Qed.

(** C9: a lookup, whatever it returns or raises, leaves the [headers] of
    the instance as they were; so after any series of lookups on an
    instance made by [__init__(client_id)] the headers are still
    [{'X-MAL-CLIENT-ID': client_id}]. *)
Theorem headers_unchanged :
  (∀ (c : call) w, headers (self (perform c w).2) = headers (self w))
  ∧ (∀ (client_id : string) (cs : list call) (log : list request),
       headers (self (session cs (World (init client_id) log)))
       = {[ "X-MAL-CLIENT-ID" := client_id ]}).
Proof.
  split.
  - intros c w. by rewrite perform_self.
  - intros client_id cs log. by rewrite session_self.
Qed.

(** C1, in the form that holds: take a response with status 200 whose body
    decodes.
    If the payload of the search response lacks [data[0].node.id] (a key is
    missing, [data] is empty or no array, an element on the way is no
    object), [get_anime_id] and [get_anime_genres] return [None]; likewise
    [get_anime_name] for [data[0].node.title].  If the identifier resolved
    and the payload of the detail response is not an object whose [genres]
    is an array of objects with a string [name], [get_anime_genres] returns
    [None], unless [genres] is the empty string or the empty object.  In
    every one of these runs the lookup returns and does not raise. *)
Theorem malformed_payload_gives_None :
  (∀ name w r j,
      requests_get (sent w) (search_request name w) = Ok r →
      status_code r = 200 → body r = Some j →
      (has_first_node_field "id" j = false →
         get_anime_id name w = (Ok PyNone, sending (search_request name w) w)
         ∧ get_anime_genres name w = (Ok PyNone, sending (search_request name w) w))
      ∧ (has_first_node_field "title" j = false →
         get_anime_name name w = (Ok PyNone, sending (search_request name w) w))
      ∧ (∃ v, (get_anime_id name w).1 = Ok v)
      ∧ (∃ v, (get_anime_name name w).1 = Ok v))
  ∧ (∀ name w anime_id r j,
      (get_anime_id name w).1 = Ok anime_id → anime_id ≠ PyNone →
      requests_get (sent (sending (search_request name w) w))
                   (detail_request anime_id (sending (search_request name w) w)) = Ok r →
      status_code r = 200 → body r = Some j →
      (has_genre_names j = false → has_void_genres j = false →
         (get_anime_genres name w).1 = Ok PyNone)
      ∧ (∃ v, (get_anime_genres name w).1 = Ok v)).
Proof.
  split.
  - intros name w r j Hr Hs Hb. repeat split.
    + rewrite get_anime_id_eq, Hr. by rewrite (on_search_malformed _ _ _ Hs Hb).
    + apply genres_short_circuit.
      rewrite get_anime_id_eq, Hr. by rewrite (on_search_malformed _ _ _ Hs Hb).
    + intros Hno. rewrite get_anime_name_eq, Hr.
      by rewrite (on_search_malformed _ _ _ Hs Hb).
    + rewrite get_anime_id_eq, Hr. apply (on_search_returns _ _ _ Hb).
    + rewrite get_anime_name_eq, Hr. apply (on_search_returns _ _ _ Hb).
  - intros name w anime_id r j Hid Hsome Hr Hs Hb.
    rewrite (get_anime_genres_detail _ _ _ _ Hid Hsome Hr). simpl. split.
    + intros Hno Hvoid. by apply (on_detail_malformed _ _ Hs Hb).
    + apply (on_detail_returns _ _ Hb).
Qed.

End QueryFacts.

(* ===================================================================== *)
(** ** The catalog client on concrete transports                          *)
(* ===================================================================== *)

Section QueryRuns.
Import Py Query Shape Fixtures.

Lemma not_2xx_gives_None_witness :
  let w := fresh "key" in
  let r := Response 404 (Some (PyDict [("error", PyStr "not_found")])) in
  @requests_get not_found (sent w) (search_request "Naruto" w) = Ok r
  ∧ ¬ (200 ≤ status_code r ≤ 299)
  ∧ @get_anime_id not_found "Naruto" w = (Ok PyNone, sending (search_request "Naruto" w) w)
  ∧ @get_anime_name not_found "Naruto" w = (Ok PyNone, sending (search_request "Naruto" w) w)
  ∧ @get_anime_genres not_found "Naruto" w
    = (Ok PyNone, sending (search_request "Naruto" w) w).
Proof.
  intros w r.
  assert (@requests_get not_found (sent w) (search_request "Naruto" w) = Ok r) as Hr
    by reflexivity.
  assert (¬ (200 ≤ status_code r ≤ 299)) as Hs by (simpl; lia).
  split; [exact Hr|]. split; [exact Hs|].
  exact (@not_2xx_gives_None not_found "Naruto" w r Hr Hs).
Defined.

Lemma genres_short_circuit_witness :
  let R := catalog (Response 200 (Some search_empty)) (Response 200 (Some detail_three)) in
  let w := fresh "key" in
  let w' := sending (search_request "Naruto" w) w in
  @get_anime_id R "Naruto" w = (Ok PyNone, w')
  ∧ @get_anime_genres R "Naruto" w = (Ok PyNone, w')
  ∧ sent w' = (sent w ++ [search_request "Naruto" w])%list
  ∧ length (sent w') = S (length (sent w)).
Proof.
  intros R w w'.
  assert (@get_anime_id R "Naruto" w = (Ok PyNone, w')) as Hid by reflexivity.
  split; [exact Hid|].
  exact (@genres_short_circuit R "Naruto" w w' Hid).
Defined.

Lemma get_anime_id_first_result_witness :
  let w := fresh "key" in
  let w' := sending (search_request "Naruto" w) w in
  @get_anime_id (catalog (Response 200 (Some search_hit)) (Response 200 (Some detail_three)))
     "Naruto" w = (Ok (PyInt 20), w')
  ∧ @get_anime_id (catalog (Response 200 (Some search_empty)) (Response 200 (Some detail_three)))
     "Naruto" w = (Ok PyNone, w').
Proof.
  intros w w'. split.
  - refine (proj1 (@get_anime_id_first_result
        (catalog (Response 200 (Some search_hit)) (Response 200 (Some detail_three)))
        "Naruto" w (Response 200 (Some search_hit))
        [("data", PyList [PyDict [("node",
            PyDict [("id", PyInt 20); ("title", PyStr "Naruto")])]])]
        [PyDict [("node", PyDict [("id", PyInt 20); ("title", PyStr "Naruto")])]]
        eq_refl eq_refl eq_refl eq_refl)
      [("node", PyDict [("id", PyInt 20); ("title", PyStr "Naruto")])] []
      [("id", PyInt 20); ("title", PyStr "Naruto")] (PyInt 20) eq_refl eq_refl eq_refl).
  - refine (proj2 (@get_anime_id_first_result
        (catalog (Response 200 (Some search_empty)) (Response 200 (Some detail_three)))
        "Naruto" w (Response 200 (Some search_empty)) [("data", PyList [])] []
        eq_refl eq_refl eq_refl eq_refl) eq_refl).
Defined.

Lemma get_anime_genres_joins_witness :
  (@get_anime_genres (catalog (Response 200 (Some search_hit)) (Response 200 (Some detail_three)))
     "Naruto" (fresh "key")).1 = Ok (PyStr "Action, Adventure, Fantasy").
Proof.
  refine (@get_anime_genres_joins
    (catalog (Response 200 (Some search_hit)) (Response 200 (Some detail_three)))
    "Naruto" (fresh "key") (PyInt 20) (Response 200 (Some detail_three))
    [("id", PyInt 20);
     ("genres", PyList [genre 1 "Action"; genre 2 "Adventure"; genre 10 "Fantasy"])]
    [("id", PyInt 1); ("name", PyStr "Action")]
    [("id", PyInt 2); ("name", PyStr "Adventure")]
    [("id", PyInt 10); ("name", PyStr "Fantasy")]
    "Action" "Adventure" "Fantasy"
    eq_refl _ eq_refl eq_refl eq_refl eq_refl eq_refl eq_refl eq_refl).
  discriminate.
Defined.

Lemma no_genres_gives_empty_string_witness :
  let R := catalog (Response 200 (Some search_hit))
                   (Response 200 (Some (PyDict [("genres", PyList [])]))) in
  (@get_anime_genres R "Naruto" (fresh "key")).1 = Ok (PyStr "") ∧ PyStr "" ≠ PyNone.
Proof.
  intros R.
  refine (@no_genres_gives_empty_string R "Naruto" (fresh "key") (PyInt 20)
    (Response 200 (Some (PyDict [("genres", PyList [])]))) [("genres", PyList [])]
    eq_refl _ eq_refl eq_refl eq_refl eq_refl).
  discriminate.
Defined.

(** A search payload without results, and a detail payload one of whose
    genres has no name. *)
Lemma malformed_payload_gives_None_witness :
  let w := fresh "key" in
  let w' := sending (search_request "Naruto" w) w in
  let nameless := PyDict [("genres", PyList [genre 1 "Action"; PyDict [("id", PyInt 2)]])] in
  let R1 := catalog (Response 200 (Some search_empty)) (Response 200 (Some detail_three)) in
  let R2 := catalog (Response 200 (Some search_hit)) (Response 200 (Some nameless)) in
  (has_first_node_field "id" search_empty = false
   ∧ has_first_node_field "title" search_empty = false
   ∧ @get_anime_id R1 "Naruto" w = (Ok PyNone, w')
   ∧ @get_anime_genres R1 "Naruto" w = (Ok PyNone, w')
   ∧ @get_anime_name R1 "Naruto" w = (Ok PyNone, w'))
  ∧ (has_genre_names nameless = false
     ∧ has_void_genres nameless = false
     ∧ (@get_anime_id R2 "Naruto" w).1 = Ok (PyInt 20)
     ∧ (@get_anime_genres R2 "Naruto" w).1 = Ok PyNone).
Proof.
  intros w w' nameless R1 R2. split.
  - destruct (proj1 (@malformed_payload_gives_None R1) "Naruto" w
        (Response 200 (Some search_empty)) search_empty eq_refl eq_refl eq_refl)
      as (Hid & Hname & _).
    destruct (Hid eq_refl) as [Hid1 Hid2].
    split; [reflexivity|]. split; [reflexivity|].
    split; [exact Hid1|]. split; [exact Hid2 | exact (Hname eq_refl)].
  - destruct (proj2 (@malformed_payload_gives_None R2) "Naruto" w (PyInt 20)
        (Response 200 (Some nameless)) nameless eq_refl
        ltac:(discriminate) eq_refl eq_refl eq_refl) as [Hgen _].
    split; [reflexivity|]. split; [reflexivity|]. split; [reflexivity|].
    exact (Hgen eq_refl eq_refl).
Defined.

(** C1 does not hold for every wrong type: here the identifier resolves,
    the detail response has status 200 and its payload has an object under
    [genres] where an array is expected; [get_anime_genres] returns the
    empty string, not [None]. *)
Lemma void_genres_not_absent :
  let odd := PyDict [("genres", PyDict [])] in
  let R := catalog (Response 200 (Some search_hit)) (Response 200 (Some odd)) in
  let w := fresh "key" in
  (@get_anime_id R "Naruto" w).1 = Ok (PyInt 20)
  ∧ @requests_get R (sent (sending (search_request "Naruto" w) w))
      (@detail_request R (PyInt 20) (sending (search_request "Naruto" w) w))
    = Ok (Response 200 (Some odd))
  ∧ has_genre_names odd = false
  ∧ (@get_anime_genres R "Naruto" w).1 = Ok (PyStr "")
  ∧ (@get_anime_genres R "Naruto" w).1 ≠ Ok PyNone.
Proof.
  intros odd R w. split; [reflexivity|]. split; [reflexivity|].
  split; [reflexivity|]. split; [reflexivity|]. discriminate.
Qed.

(** The same for an empty array, a string and an empty string under
    [genres]: only the non-empty string is turned into [None]. *)
Example genres_edge_cases :
  let run genres :=
    (@get_anime_genres
       (catalog (Response 200 (Some search_hit))
                (Response 200 (Some (PyDict [("genres", genres)]))))
       "Naruto" (fresh "key")).1 in
  run (PyList []) = Ok (PyStr "")
  ∧ run (PyStr "") = Ok (PyStr "")
  ∧ run (PyStr "Action") = Ok PyNone
  ∧ run (PyInt 7) = Ok PyNone
  ∧ run PyNone = Ok PyNone
  ∧ run (PyList [PyStr "Action"]) = Ok PyNone
  ∧ run (PyList [PyDict [("name", PyInt 1)]]) = Ok PyNone.
Proof. intros run. repeat (split; [reflexivity|]). reflexivity. Qed.

(** A leaf of the wrong type is returned as it is found. *)
Example get_anime_id_returns_any_leaf :
  (@get_anime_id
     (catalog (Response 200 (Some (PyDict [("data",
        PyList [PyDict [("node", PyDict [("id", PyStr "twenty")])]])])))
              (Response 200 (Some detail_three)))
     "Naruto" (fresh "key")).1 = Ok (PyStr "twenty").
Proof. reflexivity. Qed.

End QueryRuns.

(* ===================================================================== *)
(** ** Counting the values of a column                                    *)
(* ===================================================================== *)

Section TallyFacts.
Import Py Charts.

Implicit Types (v k : string) (t : Series) (column : list (option string)).

Lemma bump_get v k t :
  series_get k (bump v t) = series_get k t + (if decide (k = v) then 1 else 0).
Proof.
  induction t as [|[k' n] t IH]; cbn [bump series_get].
  - destruct (String.eqb_spec k v); case_decide; try done; lia.
  - destruct (String.eqb_spec v k') as [->|Hv]; cbn [series_get].
    + destruct (String.eqb_spec k k') as [->|Hk]; case_decide; try done; lia.
    + destruct (String.eqb_spec k k') as [->|Hk]; [|done].
      case_decide; [congruence|lia].
Qed.

Lemma bump_keys v k t : k ∈ (bump v t).*1 ↔ k = v ∨ k ∈ t.*1.
Proof.
  induction t as [|[k' n] t IH]; cbn [bump].
  - simpl. rewrite list_elem_of_singleton, elem_of_nil. tauto.
  - destruct (String.eqb_spec v k') as [->|Hv]; rewrite !fmap_cons, !elem_of_cons.
    + simpl. tauto.
    + rewrite IH. simpl. tauto.
Qed.

Lemma bump_NoDup v t : NoDup t.*1 → NoDup (bump v t).*1.
Proof.
  induction t as [|[k' n] t IH]; cbn [bump]; intros Hnd.
  - simpl. apply NoDup_singleton.
  - destruct (String.eqb_spec v k') as [->|Hv]; [done|].
    rewrite fmap_cons in *. apply NoDup_cons in Hnd as [Hk' Hnd].
    apply NoDup_cons. split; [|by apply IH].
    rewrite bump_keys. simpl. intros [?|?]; [congruence|done].
Qed.

Lemma tally_snoc (vs : list string) v : tally (vs ++ [v]) = bump v (tally vs).
Proof. unfold tally. by rewrite foldl_app. Qed.

Lemma dropna_snoc column (x : option string) :
  dropna (column ++ [x]) = dropna column ++ match x with Some v => [v] | None => [] end.
Proof. unfold dropna. rewrite omap_app. by destruct x. Qed.

Lemma count_of_snoc v column (x : option string) :
  count_of v (column ++ [x]) = count_of v column + (if decide (x = Some v) then 1 else 0).
Proof.
  unfold count_of. rewrite filter_app, length_app.
  rewrite filter_cons, filter_nil. case_decide; simpl; lia.
Qed.

Lemma count_of_nonneg v column : 0 ≤ count_of v column.
Proof. unfold count_of. lia. Qed.

Lemma count_of_pos v column : 0 < count_of v column ↔ Some v ∈ column.
Proof.
  unfold count_of. split.
  - intros Hpos. destruct (filter _ column) as [|x l] eqn:Hf; [simpl in Hpos; lia|].
    assert (x ∈ filter (λ x, x = Some v) column) as Hx by (rewrite Hf; by left).
    apply list_elem_of_filter in Hx as [-> ?]. done.
  - intros Hin.
    assert (Some v ∈ filter (λ x, x = Some v) column) as Hx
      by (by apply list_elem_of_filter).
    destruct (filter _ column); [by apply elem_of_nil in Hx|simpl; lia].
Qed.

(** The tally of a column holds, for each value, how often it occurs. *)
Lemma tally_get column k : series_get k (tally (dropna column)) = count_of k column.
Proof.
  induction column as [|x column IH] using rev_ind; [reflexivity|].
  rewrite dropna_snoc, count_of_snoc. destruct x as [v|].
  - rewrite tally_snoc, bump_get, IH.
    repeat case_decide; simplify_eq; done.
  - rewrite app_nil_r, IH. case_decide; [done|lia].
Qed.

Lemma tally_keys column k : k ∈ (tally (dropna column)).*1 ↔ Some k ∈ column.
Proof.
  induction column as [|x column IH] using rev_ind.
  - simpl. by rewrite !elem_of_nil.
  - rewrite dropna_snoc, elem_of_app, list_elem_of_singleton. destruct x as [v|].
    + rewrite tally_snoc, bump_keys, IH. split; intros [?|?]; simplify_eq; tauto.
    + rewrite app_nil_r, IH. split; [tauto|]. intros [?|?]; [done|discriminate].
Qed.

Lemma tally_NoDup column : NoDup (tally (dropna column)).*1.
Proof.
  induction column as [|x column IH] using rev_ind; [constructor|].
  rewrite dropna_snoc. destruct x as [v|].
  - rewrite tally_snoc. by apply bump_NoDup.
  - by rewrite app_nil_r.
Qed.

Lemma series_get_elem k n t : NoDup t.*1 → (k, n) ∈ t → series_get k t = n.
Proof.
  induction t as [|[k' n'] t IH]; intros Hnd Hin; [by apply elem_of_nil in Hin|].
  rewrite fmap_cons in Hnd. apply NoDup_cons in Hnd as [Hk' Hnd].
  cbn [series_get]. apply elem_of_cons in Hin as [[= -> ->]|Hin].
  - by rewrite String.eqb_refl.
  - destruct (String.eqb_spec k k') as [->|_]; [|by apply IH].
    destruct Hk'. simpl. apply list_elem_of_fmap. by exists (k', n).
Qed.

Lemma series_get_key k t : k ∈ t.*1 → (k, series_get k t) ∈ t.
Proof.
  induction t as [|[k' n'] t IH]; intros Hin; [by apply elem_of_nil in Hin|].
  cbn [series_get]. destruct (String.eqb_spec k k') as [->|Hne]; [by left|].
  right. apply IH. rewrite fmap_cons in Hin.
  apply elem_of_cons in Hin as [?|?]; [done|done].
Qed.

(** The rows of the tally: the values that occur, with their counts. *)
Lemma tally_rows column k n :
  (k, n) ∈ tally (dropna column) ↔ Some k ∈ column ∧ n = count_of k column.
Proof.
  split.
  - intros Hin. split.
    + apply tally_keys, list_elem_of_fmap. by exists (k, n).
    + rewrite <- tally_get. symmetry. apply series_get_elem; [apply tally_NoDup|done].
  - intros [Hin ->]. rewrite <- tally_get. by apply series_get_key, tally_keys.
Qed.

End TallyFacts.

(* ===================================================================== *)
(** ** The frequency table of the bar charts                              *)
(* ===================================================================== *)

Section BarFacts.
Import Py Charts.

Implicit Types (s target : Series) (column : list (option string)).

#[local] Instance desc_transitive : Transitive desc.
Proof. intros x y z. unfold desc. lia. Qed.

#[local] Instance desc_total : Total desc.
Proof. intros x y. unfold desc. lia. Qed.

Lemma sort_values_desc_sorted s : Sorted desc (sort_values_desc s).
Proof. apply (Sorted_merge_sort desc). Qed.

Lemma sort_values_desc_perm s : sort_values_desc s ≡ₚ s.
Proof. apply (merge_sort_Permutation desc). Qed.

Lemma NoDup_snd_inj s (x y : string * Z) :
  NoDup s.*2 → x ∈ s → y ∈ s → x.2 = y.2 → x = y.
Proof.
  induction s as [|z s IH]; intros Hnd Hx Hy Heq; [by apply elem_of_nil in Hx|].
  rewrite fmap_cons in Hnd. apply NoDup_cons in Hnd as [Hz Hnd].
  apply elem_of_cons in Hx as [->|Hx]; apply elem_of_cons in Hy as [->|Hy].
  - done.
  - destruct Hz. rewrite Heq. by apply list_elem_of_fmap_2.
  - destruct Hz. rewrite <- Heq. by apply list_elem_of_fmap_2.
  - by apply IH.
Qed.

(** Where no two counts are equal, the sorted table is the one descending
    arrangement of its rows. *)
Lemma sort_values_desc_unique s target :
  Sorted desc target → NoDup target.*2 → s ≡ₚ target →
  sort_values_desc s = target.
Proof.
  intros Hsorted Hnd Hperm.
  apply (Sorted_unique_strong desc); [|apply sort_values_desc_sorted|done|].
  - intros x y Hx Hy Hxy Hyx. apply (NoDup_snd_inj target); [done| |done|].
    + by rewrite <- Hperm, <- (sort_values_desc_perm s).
    + unfold desc in *. lia.
  - by rewrite sort_values_desc_perm.
Qed.

(** So a table that lists the values of the column with their counts, in
    strictly descending order, is what [plot_bar] starts from. *)
Lemma type_counts_unique column target :
  Sorted desc target → NoDup target.*2 →
  (∀ k n, (k, n) ∈ target ↔ Some k ∈ column ∧ n = count_of k column) →
  sort_values_desc (value_counts column) = target.
Proof.
  intros Hsorted Hnd Hrows.
  assert (tally (dropna column) ≡ₚ target) as Hperm.
  { apply NoDup_Permutation.
    - apply (NoDup_fmap_1 fst), tally_NoDup.
    - by apply (NoDup_fmap_1 snd).
    - intros [k n]. by rewrite tally_rows, Hrows. }
  apply sort_values_desc_unique; [done..|].
  unfold value_counts. by rewrite sort_values_desc_perm.
Qed.

Lemma eqb_ne (x y : string) : x ≠ y → String.eqb x y = false.
Proof. intros Hne. by destruct (String.eqb_spec x y). Qed.

(** The table of the column with frequencies [{a:50, b:30, c:20, d:10,
    e:5}]. *)
Lemma five_letters_type_counts (a b c d e : string) column :
  NoDup [a; b; c; d; e] →
  count_of a column = 50 → count_of b column = 30 → count_of c column = 20 →
  count_of d column = 10 → count_of e column = 5 →
  (∀ v, Some v ∈ column → v ∈ [a; b; c; d; e]) →
  sort_values_desc (value_counts column) = [(a, 50); (b, 30); (c, 20); (d, 10); (e, 5)].
Proof.
  intros Hnd Ha Hb Hc Hd He Hall. apply type_counts_unique.
  - repeat constructor; unfold desc; simpl; lia.
  - simpl. repeat (apply NoDup_cons; split;
      [rewrite ?elem_of_cons, elem_of_nil; lia|]). constructor.
  - intros k n. rewrite !elem_of_cons, elem_of_nil. split.
    + intros [[= -> ->]|[[= -> ->]|[[= -> ->]|[[= -> ->]|[[= -> ->]|[]]]]]];
        (split; [apply count_of_pos; lia | congruence]).
    + intros [Hin ->]. specialize (Hall k Hin).
      rewrite !elem_of_cons, elem_of_nil in Hall.
      destruct Hall as [->|[->|[->|[->|[->|[]]]]]]; rewrite ?Ha, ?Hb, ?Hc, ?Hd, ?He; tauto.
Qed.

Lemma five_letters_top_categories (a b c d e : string) column :
  NoDup [a; b; c; d; e] → "Other" ∉ [a; b; c] →
  count_of a column = 50 → count_of b column = 30 → count_of c column = 20 →
  count_of d column = 10 → count_of e column = 5 →
  (∀ v, Some v ∈ column → v ∈ [a; b; c; d; e]) →
  top_categories column 3 = [(a, 50); (b, 30); (c, 20); ("Other", 15)].
Proof.
  intros Hnd Hother Ha Hb Hc Hd He Hall. unfold top_categories.
  rewrite (five_letters_type_counts a b c d e) by done.
  rewrite !not_elem_of_cons in Hother. destruct Hother as (Hoa & Hob & Hoc & _).
  unfold head, slice_from, series_sum. cbn [length Z.leb Z.compare].
  change (Z.to_nat 3) with 3%nat. change (Z.of_nat 5 >? 3) with true.
  cbn [take drop foldr snd setitem]. by rewrite !eqb_ne.
Qed.

(** What a [:.0f] field shows is within half a unit of the number
    formatted. *)
Lemma round_half_even_near (q : Q) :
  (Qabs (inject_Z (round_half_even q) - q) <= 1 # 2)%Q.
Proof.
  destruct q as [n d]. apply Qabs_Qle_condition.
  unfold round_half_even, Qle, Qminus, Qplus, Qopp, inject_Z. cbn [Qnum Qden].
  pose proof (Z.div_mod n (Z.pos d) ltac:(lia)) as Hdm.
  pose proof (Z.mod_pos_bound n (Z.pos d) ltac:(lia)) as Hb.
  set (fl := n `div` Z.pos d) in *. set (r := n `mod` Z.pos d) in *.
  rewrite !Pos2Z.inj_mul.
  repeat case_match; rewrite ?Z.ltb_lt, ?Z.ltb_ge in *; split; nia.
Qed.

(** C6: for a column in which [a] occurs 50 times, [b] 30, [c] 20, [d] 10
    and [e] 5 times, and nothing else, [plot_bar] and [plot_horizontal_bar]
    with [limit=3] draw the bars [a], [b], [c] and then ["Other"] with count
    15 (the sum of [d] and [e]); each bar is annotated with its count
    divided by the displayed total 115, which shows as 43%, 26%, 17% and
    13%: the shares add up to exactly 100, the binary64 quotients are
    within [10^-12] of them, and each label is within half a point of its
    share. *)
Theorem top_three_and_other (a b c d e : string) column title :
  NoDup [a; b; c; d; e] → "Other" ∉ [a; b; c] →
  count_of a column = 50 → count_of b column = 30 → count_of c column = 20 →
  count_of d column = 10 → count_of e column = 5 →
  (∀ v, Some v ∈ column → v ∈ [a; b; c; d; e]) →
  let shown := [(a, 50); (b, 30); (c, 20); ("Other", 15)] in
  top_categories column 3 = shown
  ∧ series_sum shown = 115
  ∧ plot_bar column title 3 =
      Ok {| categories := shown;
            annotations := [Text_at 0 (101 # 2) (percent_label 50 115);
                            Text_at 1 (61 # 2) (percent_label 30 115);
                            Text_at 2 (41 # 2) (percent_label 20 115);
                            Text_at 3 (31 # 2) (percent_label 15 115)];
            bars_title := title;
            count_axis_max := 90 |}
  ∧ plot_horizontal_bar column title 3 =
      Ok {| categories := shown;
            annotations := [Text_at (101 # 2) 0 (percent_label 50 115);
                            Text_at (61 # 2) 1 (percent_label 30 115);
                            Text_at (41 # 2) 2 (percent_label 20 115);
                            Text_at (31 # 2) 3 (percent_label 15 115)];
            bars_title := title;
            count_axis_max := 90 |}
  ∧ [percent_label 50 115; percent_label 30 115; percent_label 20 115;
     percent_label 15 115] = ["43%"; "26%"; "17%"; "13%"]
  ∧ (share 50 115 + share 30 115 + share 20 115 + share 15 115 == 100)%Q
  ∧ Forall (λ value,
      (Qabs (float_value (share64 value 115) - share value 115) <= 1 # 10 ^ 12)%Q
      ∧ (Qabs (inject_Z (round_half_even (float_value (share64 value 115)))
               - share value 115) <= 1 # 2)%Q) [50; 30; 20; 15].
Proof.
  intros Hnd Hother Ha Hb Hc Hd He Hall shown.
  pose proof (five_letters_top_categories a b c d e column
                Hnd Hother Ha Hb Hc Hd He Hall) as Htop.
  split; [exact Htop|]. split; [reflexivity|].
  split; [unfold plot_bar; rewrite Htop; reflexivity|].
  split; [unfold plot_horizontal_bar; rewrite Htop; reflexivity|].
  split; [by vm_compute|]. split; [by vm_compute|].
  repeat constructor; by vm_compute.
Qed.

End BarFacts.

(* ===================================================================== *)
(** ** The donut of missing values                                        *)
(* ===================================================================== *)

Section DonutFacts.
Import Py Charts.

Lemma sum_bool_isna {A} (c : list (option A)) : sum_bool (isna c) = count_missing c.
Proof.
  unfold count_missing, isna, sum_bool.
  induction c as [|x c IH]; [reflexivity|].
  rewrite fmap_cons, filter_cons. cbn [foldr]. rewrite IH.
  destruct x; case_decide; simplify_eq; cbn [length]; lia.
Qed.

Lemma find_column_elem column cs c : find_column column cs = Ok c → (column, c) ∈ cs.
Proof.
  induction cs as [|[name c'] cs IH]; cbn [find_column]; [discriminate|].
  destruct (String.eqb_spec column name) as [->|_].
  - intros [= ->]. by left.
  - intros Hc. right. by apply IH.
Qed.

(** C7: for a column of a ten-row frame with exactly three missing cells,
    the labels of the frame's columns being distinct, [plot_donut_chart]
    gives [ax.pie] the sizes [[3, 7]]: the count of missing cells first,
    then the filled ones, and the first slice, the missing one, is the one
    set off by [explode = (0.1, 0)]. *)
Theorem donut_three_of_ten df column c :
  well_formed df →
  NoDup (columns df).*1 →
  find_column column (columns df) = Ok c →
  length c = 10%nat →
  count_missing c = 3 →
  plot_donut_chart df column =
    Ok {| sizes := [3; 7];
          explode := [(1 # 10)%Q; 0%Q];
          labels := ["Пропуски"; "Заполненные значения"];
          colors := ["#ff9999"; "#66b3ff"];
          pie_title := column |}.
Proof.
  intros Hwf _ Hc Hlen Hmissing.
  assert (len df = 10) as Hrows.
  { unfold well_formed in Hwf. rewrite Forall_forall in Hwf.
    specialize (Hwf _ (find_column_elem _ _ _ Hc)). simpl in Hwf.
    unfold len. rewrite <- Hwf, Hlen. reflexivity. }
  unfold plot_donut_chart. rewrite Hc, sum_bool_isna, Hmissing, Hrows. reflexivity.
Qed.

End DonutFacts.

(* ===================================================================== *)
(** ** The charts on concrete columns                                     *)
(* ===================================================================== *)

Section ChartRuns.
Import Py Charts Fixtures.

Lemma letters_values v : Some v ∈ letters → v ∈ ["a"; "b"; "c"; "d"; "e"].
Proof.
  unfold letters. rewrite !elem_of_app, !elem_of_replicate, !list_elem_of_singleton.
  rewrite !elem_of_cons.
  intros [[[= ->] _]|[?|[[[= ->] _]|[[[= ->] _]|[[[= ->] _]|[?|[[= ->] _]]]]]]];
    try discriminate; tauto.
Qed.

Lemma top_three_and_other_witness :
  top_categories letters 3 = [("a", 50); ("b", 30); ("c", 20); ("Other", 15)]
  ∧ plot_bar letters "Top" 3 =
      Ok {| categories := [("a", 50); ("b", 30); ("c", 20); ("Other", 15)];
            annotations := [Text_at 0 (101 # 2) "43%"; Text_at 1 (61 # 2) "26%";
                            Text_at 2 (41 # 2) "17%"; Text_at 3 (31 # 2) "13%"];
            bars_title := "Top";
            count_axis_max := 90 |}.
Proof.
  assert (NoDup ["a"; "b"; "c"; "d"; "e"]) as Hnd
    by (apply (bool_decide_unpack _); vm_compute; exact I).
  assert ("Other" ∉ ["a"; "b"; "c"]) as Hother
    by (apply (bool_decide_unpack _); vm_compute; exact I).
  destruct (top_three_and_other "a" "b" "c" "d" "e" letters "Top" Hnd Hother
              eq_refl eq_refl eq_refl eq_refl eq_refl letters_values)
    as (Htop & _ & Hbar & _).
  split; [exact Htop | exact Hbar].
Defined.

Lemma donut_three_of_ten_witness :
  plot_donut_chart ten_rows "Score" =
    Ok {| sizes := [3; 7];
          explode := [(1 # 10)%Q; 0%Q];
          labels := ["Пропуски"; "Заполненные значения"];
          colors := ["#ff9999"; "#66b3ff"];
          pie_title := "Score" |}.
Proof.
  refine (donut_three_of_ten ten_rows "Score"
            [Some (Num 8); None; Some (Num 7); Some (Num 9); None;
             Some (Num 6); Some (Num 8); None; Some (Num 5); Some (Num 7)]
            _ _ eq_refl eq_refl eq_refl).
  - repeat constructor.
  - apply (bool_decide_unpack _). vm_compute. exact I.
Defined.

End ChartRuns.

(* ===================================================================== *)
(** ** The catalog client: faults, requests and sessions                  *)
(* ===================================================================== *)

Section QueryMore.
Import Py Query Shape.
Context `{!Runtime}.

Implicit Types (name : string) (w : world) (r : response) (v j : pyval).

(** [get_anime_genres] once [get_anime_id] has returned a value other than
    [None]: the detail request goes out from the world the search left. *)
Lemma get_anime_genres_second name w anime_id :
  (get_anime_id name w).1 = Ok anime_id → anime_id ≠ PyNone →
  get_anime_genres name w =
    (match requests_get (sent (sending (search_request name w) w))
             (detail_request anime_id (sending (search_request name w) w)) with
     | Ok r => on_detail r
     | Raise e => Raise e
     end,
     sending (detail_request anime_id (sending (search_request name w) w))
             (sending (search_request name w) w)).
Proof.
  intros Hid Hsome. rewrite get_anime_genres_eq.
  pose proof (get_anime_id_world name w) as Hw.
  destruct (get_anime_id name w) as [res w1]. simpl in Hid, Hw. subst res w1.
  by destruct anime_id.
Qed.

(** When the search is answered 200 and the [data] array of the payload
    starts with a result that has a [title] under [node],
    [get_anime_name] returns that title; when the array is empty it
    returns [None]. *)
Theorem get_anime_name_first_result name w r top data :
  requests_get (sent w) (search_request name w) = Ok r →
  status_code r = 200 →
  body r = Some (PyDict top) →
  dict_get "data" top = Some (PyList data) →
  (∀ first rest node v,
      data = PyDict first :: rest →
      dict_get "node" first = Some (PyDict node) →
      dict_get "title" node = Some v →
      get_anime_name name w = (Ok v, sending (search_request name w) w))
  ∧ (data = [] →
      get_anime_name name w = (Ok PyNone, sending (search_request name w) w)).
Proof.
  intros Hr Hs Hb Hd. rewrite get_anime_name_eq, Hr. unfold on_search.
  rewrite bool_decide_eq_true_2 by done. split.
  - intros first rest node v -> Hn Hv.
    by rewrite (first_node_field_found _ _ _ _ _ _ _ Hb Hd Hn Hv).
  - intros ->. by rewrite (first_node_field_no_result _ _ _ Hb Hd).
Qed.

(** A fault of [requests.get] on the search request is not caught: each of
    the three lookups raises it, with that one request on the log. *)
Theorem search_fault_propagates name w e :
  requests_get (sent w) (search_request name w) = Raise e →
  get_anime_id name w = (Raise e, sending (search_request name w) w)
  ∧ get_anime_name name w = (Raise e, sending (search_request name w) w)
  ∧ get_anime_genres name w = (Raise e, sending (search_request name w) w).
Proof.
  intros Hr. rewrite get_anime_genres_eq, get_anime_id_eq, get_anime_name_eq, Hr.
  done.
Qed.

(** Once the identifier is there, a fault of [requests.get] on the detail
    request is raised by [get_anime_genres], with both requests on the
    log. *)
Theorem detail_fault_propagates name w anime_id e :
  (get_anime_id name w).1 = Ok anime_id → anime_id ≠ PyNone →
  requests_get (sent (sending (search_request name w) w))
               (detail_request anime_id (sending (search_request name w) w)) = Raise e →
  get_anime_genres name w =
    (Raise e,
     sending (detail_request anime_id (sending (search_request name w) w))
             (sending (search_request name w) w)).
Proof.
  intros Hid Hsome Hr. by rewrite (get_anime_genres_second _ _ _ Hid Hsome), Hr.
Qed.

(** Once the identifier is there, a detail response with a status other
    than 200 makes [get_anime_genres] return [None], with both requests on
    the log. *)
Theorem detail_other_status_gives_None name w anime_id r :
  (get_anime_id name w).1 = Ok anime_id → anime_id ≠ PyNone →
  requests_get (sent (sending (search_request name w) w))
               (detail_request anime_id (sending (search_request name w) w)) = Ok r →
  status_code r ≠ 200 →
  get_anime_genres name w =
    (Ok PyNone,
     sending (detail_request anime_id (sending (search_request name w) w))
             (sending (search_request name w) w)).
Proof.
  intros Hid Hsome Hr Hs. rewrite (get_anime_genres_second _ _ _ Hid Hsome), Hr.
  unfold on_detail. by rewrite bool_decide_eq_false_2.
Qed.

(** Any status other than 200 on the search request, 201 or 204 as well as
    an error status, makes the three lookups return [None]. *)
Theorem search_other_status_gives_None name w r :
  requests_get (sent w) (search_request name w) = Ok r →
  status_code r ≠ 200 →
  get_anime_id name w = (Ok PyNone, sending (search_request name w) w)
  ∧ get_anime_name name w = (Ok PyNone, sending (search_request name w) w)
  ∧ get_anime_genres name w = (Ok PyNone, sending (search_request name w) w).
Proof.
  intros Hr Hs. rewrite get_anime_genres_eq, get_anime_id_eq, get_anime_name_eq, Hr.
  rewrite !on_search_other_status by done. done.
Qed.

(** However many genres the detail response lists, each an object with a
    string [name], [get_anime_genres] returns the names in their order,
    joined by [", "]. *)
Theorem get_anime_genres_joins_all name w anime_id r top gs names :
  (get_anime_id name w).1 = Ok anime_id → anime_id ≠ PyNone →
  requests_get (sent (sending (search_request name w) w))
               (detail_request anime_id (sending (search_request name w) w)) = Ok r →
  status_code r = 200 →
  body r = Some (PyDict top) →
  dict_get "genres" top = Some (PyList gs) →
  Forall2 (λ g n, ∃ fields, g = PyDict fields ∧ dict_get "name" fields = Some (PyStr n))
          gs names →
  (get_anime_genres name w).1 = Ok (PyStr (String.concat ", " names)).
Proof.
  intros Hid Hsome Hr Hs Hb Hg Hall.
  rewrite (get_anime_genres_second _ _ _ Hid Hsome), Hr. unfold on_detail. simpl.
  rewrite bool_decide_eq_true_2 by done.
  by rewrite (joined_genres_names r top gs names Hb Hg Hall).
Qed.

Lemma on_detail_str_or_None r v : on_detail r = Ok v → v = PyNone ∨ ∃ s, v = PyStr s.
Proof.
  unfold on_detail, guarded. case_bool_decide; [|intros [= <-]; by left].
  destruct (joined_genres r) as [x|e] eqn:Hj.
  - intros [= <-]. right. by apply (joined_genres_str r).
  - destruct (lookup_errors e); [intros [= <-]; by left | discriminate].
Qed.

(** What [get_anime_genres] returns is [None] or a string; it is never a
    list. *)
Theorem get_anime_genres_str_or_None name w v :
  (get_anime_genres name w).1 = Ok v → v = PyNone ∨ ∃ s, v = PyStr s.
Proof.
  rewrite get_anime_genres_eq.
  destruct (get_anime_id name w) as [[anime_id|e] w1]; [|discriminate].
  destruct anime_id; cbn [fst]; try (intros [= <-]; by left);
    (destruct (requests_get _ _) as [r|e]; [apply on_detail_str_or_None|discriminate]).
Qed.

(** The requests of one [get_anime_genres]: the search request, and after
    it the detail request for the identifier exactly when [get_anime_id]
    returned one; no detail request when it returned [None] or raised. *)
Theorem get_anime_genres_requests name w :
  sent (get_anime_genres name w).2 =
    sent w ++ search_request name w ::
      match (get_anime_id name w).1 with
      | Ok PyNone | Raise _ => []
      | Ok anime_id => [detail_request anime_id (sending (search_request name w) w)]
      end.
Proof.
  rewrite get_anime_genres_eq.
  pose proof (get_anime_id_world name w) as Hw.
  destruct (get_anime_id name w) as [[anime_id|e] w1]; simpl in Hw; subst w1;
    [|done].
  destruct anime_id; cbn [fst snd sending sent]; by rewrite <- ?app_assoc.
Qed.

(** *** Series of calls *)

(** One call adds one or two requests to the log, each with the headers of
    the instance. *)
Lemma perform_requests (c : call) w :
  ∃ more, sent (perform c w).2 = sent w ++ more
          ∧ (1 ≤ length more ≤ 2)%nat
          ∧ Forall (λ rq, req_headers rq = headers (self w)) more.
Proof.
  destruct c as [name|name|name]; cbn [perform].
  - exists [search_request name w]. rewrite get_anime_id_world.
    split; [done|]. split; [simpl; lia|]. by repeat constructor.
  - exists [search_request name w]. rewrite get_anime_name_eq.
    split; [done|]. split; [simpl; lia|]. by repeat constructor.
  - rewrite get_anime_genres_eq.
    pose proof (get_anime_id_world name w) as Hw.
    destruct (get_anime_id name w) as [[anime_id|e] w1]; simpl in Hw; subst w1.
    + destruct anime_id;
        first [ exists [search_request name w];
                split; [done|]; split; [simpl; lia|]; by repeat constructor
              | eexists [search_request name w; _];
                split; [cbn [snd sending sent]; by rewrite <- app_assoc|];
                split; [simpl; lia|]; by repeat constructor ].
    + exists [search_request name w].
      split; [done|]. split; [simpl; lia|]. by repeat constructor.
Qed.

Lemma session_requests (cs : list call) w :
  ∃ more, sent (session cs w) = sent w ++ more
          ∧ (length cs ≤ length more ≤ 2 * length cs)%nat
          ∧ Forall (λ rq, req_headers rq = headers (self w)) more.
Proof.
  revert w. induction cs as [|c cs IH]; intros w.
  - exists []. rewrite app_nil_r. split; [done|]. split; [simpl; lia|constructor].
  - cbn [session].
    destruct (perform_requests c w) as (m1 & H1 & Hn1 & Hh1).
    destruct (IH (perform c w).2) as (m2 & H2 & Hn2 & Hh2).
    rewrite perform_self in Hh2.
    exists (m1 ++ m2). rewrite H2, H1, <- app_assoc. split; [done|].
    split; [rewrite length_app; simpl; lia|]. by apply Forall_app.
Qed.

(** A series of calls only adds to the log of requests: at least one and at
    most two requests for each call. *)
Theorem session_request_count (cs : list call) w :
  sent w `prefix_of` sent (session cs w)
  ∧ (length (sent w) + length cs ≤ length (sent (session cs w))
     ≤ length (sent w) + 2 * length cs)%nat.
Proof.
  destruct (session_requests cs w) as (more & Hlog & Hn & _). rewrite Hlog.
  split; [by exists more|]. rewrite length_app. lia.
Qed.

(** Every request sent through an instance made by [__init__(client_id)],
    search or detail, carries the one header
    [{'X-MAL-CLIENT-ID': client_id}]. *)
Theorem session_requests_carry_credential (client_id : string) (cs : list call) :
  Forall (λ rq, req_headers rq = {[ "X-MAL-CLIENT-ID" := client_id ]})
         (sent (session cs (World (init client_id) []))).
Proof.
  destruct (session_requests cs (World (init client_id) [])) as (more & Hlog & _ & Hh).
  rewrite Hlog. simpl. exact Hh.
Qed.

End QueryMore.

Section QueryMoreRuns.
Import Py Query Shape Fixtures.

Lemma get_anime_name_first_result_witness :
  let w := fresh "key" in
  let w' := sending (search_request "Naruto" w) w in
  @get_anime_name (search_only (Response 200 (Some search_hit))) "Naruto" w
    = (Ok (PyStr "Naruto"), w')
  ∧ @get_anime_name (search_only (Response 200 (Some search_empty))) "Naruto" w
    = (Ok PyNone, w').
Proof.
  intros w w'. split.
  - refine (proj1 (@get_anime_name_first_result
        (search_only (Response 200 (Some search_hit)))
        "Naruto" w (Response 200 (Some search_hit))
        [("data", PyList [PyDict [("node",
            PyDict [("id", PyInt 20); ("title", PyStr "Naruto")])]])]
        [PyDict [("node", PyDict [("id", PyInt 20); ("title", PyStr "Naruto")])]]
        eq_refl eq_refl eq_refl eq_refl)
      [("node", PyDict [("id", PyInt 20); ("title", PyStr "Naruto")])] []
      [("id", PyInt 20); ("title", PyStr "Naruto")] (PyStr "Naruto")
      eq_refl eq_refl eq_refl).
  - refine (proj2 (@get_anime_name_first_result
        (search_only (Response 200 (Some search_empty)))
        "Naruto" w (Response 200 (Some search_empty)) [("data", PyList [])] []
        eq_refl eq_refl eq_refl eq_refl) eq_refl).
Defined.

Lemma search_fault_propagates_witness :
  let w := fresh "key" in
  let w' := sending (search_request "Naruto" w) w in
  @get_anime_id offline "Naruto" w = (Raise ConnectionError, w')
  ∧ @get_anime_name offline "Naruto" w = (Raise ConnectionError, w')
  ∧ @get_anime_genres offline "Naruto" w = (Raise ConnectionError, w').
Proof.
  intros w w'.
  exact (@search_fault_propagates offline "Naruto" w ConnectionError eq_refl).
Defined.

Lemma detail_fault_propagates_witness :
  let R := search_only (Response 200 (Some search_hit)) in
  let w := fresh "key" in
  let w1 := sending (search_request "Naruto" w) w in
  @get_anime_genres R "Naruto" w
    = (Raise ConnectionError, sending (@detail_request R (PyInt 20) w1) w1).
Proof.
  intros R w w1.
  refine (@detail_fault_propagates R "Naruto" w (PyInt 20) ConnectionError
            eq_refl _ eq_refl).
  discriminate.
Defined.

Lemma detail_other_status_gives_None_witness :
  let R := catalog (Response 200 (Some search_hit)) (Response 500 None) in
  let w := fresh "key" in
  let w1 := sending (search_request "Naruto" w) w in
  @get_anime_genres R "Naruto" w
    = (Ok PyNone, sending (@detail_request R (PyInt 20) w1) w1).
Proof.
  intros R w w1.
  refine (@detail_other_status_gives_None R "Naruto" w (PyInt 20) (Response 500 None)
            eq_refl _ eq_refl _); [discriminate | simpl; lia].
Defined.

Lemma search_other_status_gives_None_witness :
  let R := search_only (Response 204 None) in
  let w := fresh "key" in
  let w' := sending (search_request "Naruto" w) w in
  @get_anime_id R "Naruto" w = (Ok PyNone, w')
  ∧ @get_anime_name R "Naruto" w = (Ok PyNone, w')
  ∧ @get_anime_genres R "Naruto" w = (Ok PyNone, w').
Proof.
  intros R w w'.
  refine (@search_other_status_gives_None R "Naruto" w (Response 204 None) eq_refl _).
  simpl. lia.
Defined.

Lemma get_anime_genres_joins_all_witness :
  let one := PyDict [("genres", PyList [genre 4 "Comedy"])] in
  (@get_anime_genres (catalog (Response 200 (Some search_hit)) (Response 200 (Some one)))
     "Naruto" (fresh "key")).1 = Ok (PyStr "Comedy").
Proof.
  intros one.
  refine (@get_anime_genres_joins_all
    (catalog (Response 200 (Some search_hit)) (Response 200 (Some one)))
    "Naruto" (fresh "key") (PyInt 20) (Response 200 (Some one))
    [("genres", PyList [genre 4 "Comedy"])] [genre 4 "Comedy"] ["Comedy"]
    eq_refl _ eq_refl eq_refl eq_refl eq_refl _); [discriminate|].
  repeat constructor. by eexists.
Defined.

Lemma get_anime_genres_str_or_None_witness :
  PyStr "Action, Adventure, Fantasy" = PyNone
  ∨ ∃ s, PyStr "Action, Adventure, Fantasy" = PyStr s.
Proof.
  exact (@get_anime_genres_str_or_None
    (catalog (Response 200 (Some search_hit)) (Response 200 (Some detail_three)))
    "Naruto" (fresh "key") (PyStr "Action, Adventure, Fantasy") eq_refl).
Defined.

Lemma undecodable_body_raises_witness :
  let R := search_only (Response 200 None) in
  let w := fresh "key" in
  (@get_anime_id R "Naruto" w).1 = Raise JSONDecodeError
  ∧ (@get_anime_name R "Naruto" w).1 = Raise JSONDecodeError
  ∧ (@get_anime_genres R "Naruto" w).1 = Raise JSONDecodeError.
Proof.
  intros R w.
  exact (@undecodable_body_raises R "Naruto" w (Response 200 None)
           eq_refl eq_refl eq_refl).
Defined.

End QueryMoreRuns.

(* ===================================================================== *)
(** ** Series: sums, rows and the [Other] row                             *)
(* ===================================================================== *)

Section SeriesFacts.
Import Py Charts.

Implicit Types (s t : Series) (label k : string) (column : list (option string)).

Lemma series_sum_app s t : series_sum (s ++ t) = series_sum s + series_sum t.
Proof.
  unfold series_sum. induction s as [|x s IH]; cbn [app foldr]; [lia|].
  rewrite IH. lia.
Qed.

Lemma series_sum_perm s t : s ≡ₚ t → series_sum s = series_sum t.
Proof.
  unfold series_sum. induction 1; cbn [foldr]; lia.
Qed.

Lemma series_sum_bump v t : series_sum (bump v t) = series_sum t + 1.
Proof.
  unfold series_sum. induction t as [|[k n] t IH]; cbn [bump foldr snd]; [lia|].
  destruct (String.eqb v k); cbn [foldr snd]; lia.
Qed.

Lemma series_sum_tally (vs : list string) : series_sum (tally vs) = Z.of_nat (length vs).
Proof.
  induction vs as [|v vs IH] using rev_ind; [reflexivity|].
  rewrite tally_snoc, series_sum_bump, IH, length_app. simpl. lia.
Qed.

Lemma type_counts_perm column : type_counts column ≡ₚ tally (dropna column).
Proof.
  unfold type_counts, value_counts, sort_values_desc.
  by rewrite !(merge_sort_Permutation desc).
Qed.

Lemma type_counts_sum column : series_sum (type_counts column) = count_present column.
Proof.
  rewrite (series_sum_perm _ _ (type_counts_perm column)). apply series_sum_tally.
Qed.

Lemma type_counts_rows column k n :
  (k, n) ∈ type_counts column ↔ Some k ∈ column ∧ n = count_of k column.
Proof. by rewrite (type_counts_perm column), tally_rows. Qed.

Lemma type_counts_NoDup column : NoDup (type_counts column).*1.
Proof. rewrite (type_counts_perm column). apply tally_NoDup. Qed.

Lemma type_counts_sorted column : StronglySorted desc (type_counts column).
Proof.
  apply Sorted.Sorted_StronglySorted; [|apply sort_values_desc_sorted].
  intros x y z. unfold desc. lia.
Qed.

Lemma type_counts_nil column : type_counts column = [] ↔ ∀ v, Some v ∉ column.
Proof.
  split.
  - intros Hnil v Hin.
    assert ((v, count_of v column) ∈ type_counts column) as Hrow
      by (by apply type_counts_rows).
    rewrite Hnil in Hrow. by apply elem_of_nil in Hrow.
  - intros Hnone. destruct (type_counts column) as [|[k n] s] eqn:Htc; [done|].
    assert ((k, n) ∈ type_counts column) as Hrow by (rewrite Htc; by left).
    apply type_counts_rows in Hrow as [Hin _]. by destruct (Hnone k).
Qed.

(** [head] and the slice split the table in two. *)
Lemma head_slice_from (limit : Z) s : head limit s ++ slice_from limit s = s.
Proof. unfold head, slice_from. case_match; apply take_drop. Qed.

Lemma head_subseteq (limit : Z) s : head limit s ⊆ s.
Proof. unfold head. case_match; apply subseteq_take. Qed.

Lemma head_all (limit : Z) s : Z.of_nat (length s) ≤ limit → head limit s = s.
Proof.
  intros Hle. unfold head. destruct (Z.leb_spec 0 limit); [|lia].
  apply take_ge. lia.
Qed.

Lemma head_length (limit : Z) s :
  0 ≤ limit < Z.of_nat (length s) → length (head limit s) = Z.to_nat limit.
Proof.
  intros Hlt. unfold head. destruct (Z.leb_spec 0 limit); [|lia].
  apply length_take_le. lia.
Qed.

(** [s[label] = v] *)
Lemma setitem_absent label (v : Z) s :
  label ∉ s.*1 → setitem label v s = s ++ [(label, v)].
Proof.
  induction s as [|[k n] s IH]; cbn [setitem]; [done|].
  rewrite fmap_cons, not_elem_of_cons. intros [Hne Hnot].
  rewrite eqb_ne by done. by rewrite IH.
Qed.

Lemma setitem_get label (v : Z) s : series_get label (setitem label v s) = v.
Proof.
  induction s as [|[k n] s IH]; cbn [setitem series_get].
  - by rewrite String.eqb_refl.
  - destruct (String.eqb_spec label k) as [->|Hne]; cbn [series_get].
    + by rewrite String.eqb_refl.
    + by rewrite eqb_ne.
Qed.

Lemma setitem_length label (v : Z) s :
  label ∈ s.*1 → length (setitem label v s) = length s.
Proof.
  induction s as [|[k n] s IH]; cbn [setitem]; [by intros ?%elem_of_nil|].
  rewrite fmap_cons, elem_of_cons. intros Hin.
  destruct (String.eqb_spec label k) as [->|Hne]; [done|].
  cbn [length]. rewrite IH; [done|]. by destruct Hin.
Qed.

Lemma setitem_keys label (v : Z) s k :
  k ∈ (setitem label v s).*1 ↔ k = label ∨ k ∈ s.*1.
Proof.
  induction s as [|[k' n] s IH]; cbn [setitem].
  - simpl. rewrite list_elem_of_singleton, elem_of_nil. tauto.
  - destruct (String.eqb_spec label k') as [->|Hne]; rewrite !fmap_cons, !elem_of_cons.
    + simpl. tauto.
    + rewrite IH. simpl. tauto.
Qed.

Lemma setitem_NoDup label (v : Z) s : NoDup s.*1 → NoDup (setitem label v s).*1.
Proof.
  induction s as [|[k n] s IH]; cbn [setitem]; intros Hnd.
  - simpl. apply NoDup_singleton.
  - destruct (String.eqb_spec label k) as [->|Hne]; [done|].
    rewrite fmap_cons in *. apply NoDup_cons in Hnd as [Hk Hnd].
    apply NoDup_cons. split; [|by apply IH].
    rewrite setitem_keys. simpl. intros [?|?]; [congruence|done].
Qed.

Lemma setitem_rows label (v : Z) s (x : string * Z) :
  x ∈ setitem label v s → x.1 = label ∨ x ∈ s.
Proof.
  induction s as [|[k n] s IH]; cbn [setitem].
  - intros ->%list_elem_of_singleton. by left.
  - destruct (String.eqb_spec label k) as [->|Hne]; rewrite !elem_of_cons.
    + intros [->|?]; [by left | right; by right].
    + intros [->|Hin]; [right; by left|].
      destruct (IH Hin); [by left | right; by right].
Qed.

(** [top_categories] in terms of the sorted table. *)
Lemma top_categories_eq column (limit : Z) :
  top_categories column limit =
    if Z.of_nat (length (type_counts column)) >? limit
    then setitem "Other" (series_sum (slice_from limit (type_counts column)))
                 (head limit (type_counts column))
    else head limit (type_counts column).
Proof. reflexivity. Qed.

Lemma top_categories_nil column (limit : Z) :
  0 ≤ limit → (top_categories column limit = [] ↔ ∀ v, Some v ∉ column).
Proof.
  intros Hpos. rewrite <- type_counts_nil, top_categories_eq.
  destruct (Z.gtb_spec (Z.of_nat (length (type_counts column))) limit) as [Hgt|Hle].
  - split.
    + intros Hnil.
      destruct (head limit (type_counts column)) as [|[k n] s]; cbn [setitem] in Hnil;
        [discriminate|]. destruct (String.eqb "Other" k); discriminate.
    + intros Hnil. rewrite Hnil in Hgt. simpl in Hgt. lia.
  - by rewrite head_all.
Qed.

End SeriesFacts.

(* ===================================================================== *)
(** ** The charts: what is drawn for any column                           *)
(* ===================================================================== *)

Section ChartsMore.
Import Py Charts.

Implicit Types (s : Series) (column : list (option string)) (limit : Z).

Lemma find_column_raise name cs e :
  find_column name cs = Raise e ↔ e = KeyError ∧ name ∉ cs.*1.
Proof.
  induction cs as [|[k c] cs IH]; cbn [find_column].
  - split; [intros [= <-]; split; [done|apply not_elem_of_nil] | by intros [-> _]].
  - rewrite fmap_cons, not_elem_of_cons. simpl.
    destruct (String.eqb_spec name k) as [->|Hne].
    + split; [discriminate | by intros [_ [? _]]].
    + rewrite IH. tauto.
Qed.

Lemma find_column_known name cs :
  name ∈ cs.*1 → ∃ c, find_column name cs = Ok c ∧ (name, c) ∈ cs.
Proof.
  intros Hin. destruct (find_column name cs) as [c|e] eqn:Hc.
  - exists c. split; [done|]. by apply find_column_elem.
  - apply find_column_raise in Hc as [_ Hnot]. by destruct Hnot.
Qed.

(** When the frame has no column of the given name, [plot_donut_chart]
    raises [KeyError] at [df[column]], before anything is counted or drawn.
    When it has one, the labels being distinct, no exception arises before
    [ax.pie] is called, with the count of the missing cells of that column
    and the rest of the rows.  (What [ax.pie] does with them is not part of
    this statement.) *)
Theorem plot_donut_chart_unknown_column df (column : string) :
  (column ∉ (columns df).*1 → plot_donut_chart df column = Raise KeyError)
  ∧ (NoDup (columns df).*1 → column ∈ (columns df).*1 →
     ∃ p c, (column, c) ∈ columns df
            ∧ plot_donut_chart df column = Ok p
            ∧ sizes p = [count_missing c; len df - count_missing c]).
Proof.
  unfold plot_donut_chart. split.
  - intros Hnot.
    destruct (find_column column (columns df)) as [c|e] eqn:Hc.
    + apply find_column_elem in Hc. destruct Hnot.
      apply list_elem_of_fmap. by exists (column, c).
    + by apply find_column_raise in Hc as [-> _].
  - intros _ Hin. destruct (find_column_known _ _ Hin) as (c & Hc & Hrow).
    rewrite Hc, sum_bool_isna. eexists _, c. done.
Qed.

Lemma missing_and_present {A} (c : list (option A)) :
  count_missing c + count_present c = Z.of_nat (length c).
Proof.
  unfold count_missing, count_present, dropna.
  induction c as [|x c IH]; [reflexivity|].
  rewrite filter_cons. destruct x as [a|]; case_decide; simplify_eq;
    cbn [omap list_omap id length] in *; fold (omap (M:=list) id c) in *; lia.
Qed.

(** For a column of a frame whose column labels are distinct, the two
    slices are the number of missing cells and the number of filled cells
    of that column, and together they make up the rows of the frame. *)
Theorem plot_donut_chart_slices df (column : string) c :
  well_formed df →
  NoDup (columns df).*1 →
  find_column column (columns df) = Ok c →
  ∃ p, plot_donut_chart df column = Ok p
       ∧ sizes p = [count_missing c; count_present c]
       ∧ count_missing c + count_present c = len df.
Proof.
  intros Hwf _ Hc.
  assert (len df = Z.of_nat (length c)) as Hrows.
  { unfold well_formed in Hwf. rewrite Forall_forall in Hwf.
    specialize (Hwf _ (find_column_elem _ _ _ Hc)). simpl in Hwf.
    unfold len. by rewrite Hwf. }
  pose proof (missing_and_present c) as Hsum.
  unfold plot_donut_chart. rewrite Hc, sum_bool_isna. eexists. split; [done|].
  cbn [sizes]. split; [|lia]. do 2 f_equal. lia.
Qed.

(** When the column has no more distinct values than [limit], the bars are
    the whole sorted table: one bar for each value that occurs, with the
    number of its occurrences, and no [Other] bar is added. *)
Theorem top_categories_all_kept column limit :
  Z.of_nat (length (type_counts column)) ≤ limit →
  top_categories column limit = type_counts column
  ∧ ∀ k n, (k, n) ∈ top_categories column limit
           ↔ Some k ∈ column ∧ n = count_of k column.
Proof.
  intros Hle.
  assert (top_categories column limit = type_counts column) as Htop.
  { rewrite top_categories_eq.
    destruct (Z.gtb_spec (Z.of_nat (length (type_counts column))) limit); [lia|].
    by apply head_all. }
  split; [done|]. intros k n. rewrite Htop. apply type_counts_rows.
Qed.

(** Unless one of the kept categories is itself called [Other], the counts
    drawn add up to the number of filled cells of the column, whatever the
    limit: nothing is lost by folding the rest into [Other]. *)
Theorem top_categories_sum column limit :
  "Other" ∉ (head limit (type_counts column)).*1 →
  series_sum (top_categories column limit) = count_present column.
Proof.
  intros Hother. rewrite <- type_counts_sum, top_categories_eq.
  destruct (Z.gtb_spec (Z.of_nat (length (type_counts column))) limit) as [Hgt|Hle].
  - rewrite setitem_absent by done. rewrite series_sum_app.
    rewrite <- (head_slice_from limit (type_counts column)) at 3.
    rewrite series_sum_app. unfold series_sum at 2. simpl. lia.
  - by rewrite head_all.
Qed.

(** When the column has more distinct values than [limit], the row [Other]
    holds the sum of the counts that were not kept.  It is appended after
    the kept rows, unless a kept category is itself called [Other]: then
    that row is overwritten and no bar is added. *)
Theorem top_categories_other_row column limit :
  Z.of_nat (length (type_counts column)) > limit →
  let kept := head limit (type_counts column) in
  let rest := series_sum (slice_from limit (type_counts column)) in
  series_get "Other" (top_categories column limit) = rest
  ∧ ("Other" ∉ kept.*1 → top_categories column limit = kept ++ [("Other", rest)])
  ∧ ("Other" ∈ kept.*1 → length (top_categories column limit) = length kept).
Proof.
  intros Hgt kept rest. rewrite top_categories_eq.
  destruct (Z.gtb_spec (Z.of_nat (length (type_counts column))) limit); [|lia].
  split; [apply setitem_get|]. split.
  - apply setitem_absent.
  - apply setitem_length.
Qed.

Lemma head_dominates_slice column limit :
  ∀ x y, x ∈ head limit (type_counts column) →
         y ∈ slice_from limit (type_counts column) → y.2 ≤ x.2.
Proof.
  pose proof (type_counts_sorted column) as Hsorted.
  rewrite <- (head_slice_from limit (type_counts column)) in Hsorted.
  intros x y Hx Hy.
  exact (StronglySorted_app_1_elem_of desc _ _ x y Hsorted Hx Hy).
Qed.

(** The bars kept are the most frequent values: a value of the column that
    has no bar of its own (it is folded into [Other]) occurs no more often
    than any bar other than [Other] shows. *)
Theorem kept_categories_dominate column limit k n v :
  (k, n) ∈ top_categories column limit → k ≠ "Other" →
  Some v ∈ column → v ∉ (top_categories column limit).*1 →
  count_of v column ≤ n.
Proof.
  intros Hrow Hk Hv Hnot. rewrite top_categories_eq in Hrow, Hnot.
  assert ((k, n) ∈ head limit (type_counts column)) as Hkept.
  { case_match; [|done]. by apply setitem_rows in Hrow as [?|?]. }
  assert (v ∉ (head limit (type_counts column)).*1) as Hvkept.
  { intros Hin. apply Hnot. case_match; [|done]. apply setitem_keys. by right. }
  assert ((v, count_of v column) ∈ type_counts column) as Hvrow
    by (by apply type_counts_rows).
  rewrite <- (head_slice_from limit (type_counts column)) in Hvrow.
  apply elem_of_app in Hvrow as [Hin|Hin].
  - destruct Hvkept. apply list_elem_of_fmap. by exists (v, count_of v column).
  - exact (head_dominates_slice column limit _ _ Hkept Hin).
Qed.

(** No label is drawn twice, whatever the column and the limit. *)
Theorem top_categories_labels_NoDup column limit :
  NoDup (top_categories column limit).*1.
Proof.
  assert (NoDup (head limit (type_counts column)).*1) as Hkept.
  { unfold head. case_match; rewrite fmap_take;
      (eapply sublist_NoDup; [apply type_counts_NoDup | apply sublist_take]). }
  rewrite top_categories_eq. case_match; [by apply setitem_NoDup | done].
Qed.

(** Every bar other than [Other] stands for a value that occurs in the
    column and shows the number of its occurrences. *)
Theorem top_categories_true_counts column limit :
  Forall (λ kv, kv.1 = "Other" ∨ (Some kv.1 ∈ column ∧ kv.2 = count_of kv.1 column))
         (top_categories column limit).
Proof.
  assert (∀ kv, kv ∈ head limit (type_counts column) →
                Some kv.1 ∈ column ∧ kv.2 = count_of kv.1 column) as Hkept.
  { intros [k n] Hin. apply type_counts_rows. by apply (head_subseteq limit). }
  apply Forall_forall. intros kv Hin. rewrite top_categories_eq in Hin.
  case_match; [|right; by apply Hkept].
  apply setitem_rows in Hin as [?|?]; [by left | right; by apply Hkept].
Qed.

(** With a limit that is not negative there are never more than [limit + 1]
    bars. *)
Theorem top_categories_at_most column limit :
  0 ≤ limit → (length (top_categories column limit) ≤ Z.to_nat limit + 1)%nat.
Proof.
  intros Hpos. rewrite top_categories_eq.
  assert (length (head limit (type_counts column)) ≤ Z.to_nat limit)%nat as Hkept.
  { unfold head. destruct (Z.leb_spec 0 limit); [|lia]. rewrite length_take. lia. }
  case_match; [|lia].
  destruct (decide ("Other" ∈ (head limit (type_counts column)).*1)) as [Hin|Hnot].
  - rewrite setitem_length by done. lia.
  - rewrite setitem_absent by done. rewrite length_app. simpl. lia.
Qed.

Lemma foldl_max_spec (rest : Series) (n : Z) :
  let m := foldl (λ m kv, Z.max m kv.2) n rest in
  n ≤ m ∧ Forall (λ kv, kv.2 ≤ m) rest ∧ (m = n ∨ ∃ kv, kv ∈ rest ∧ kv.2 = m).
Proof.
  revert n. induction rest as [|x rest IH]; intros n; cbn [foldl].
  - split; [lia|]. split; [constructor | by left].
  - destruct (IH (Z.max n x.2)) as (Hle & Hall & Hwho).
    split; [lia|]. split; [constructor; [lia|done]|].
    destruct Hwho as [Heq|(kv & Hin & Hkv)].
    + destruct (Z.max_spec n x.2) as [[_ Hm]|[_ Hm]].
      * right. exists x. split; [by left | lia].
      * left. lia.
    + right. exists kv. split; [by right | done].
Qed.

Lemma series_max_spec s m :
  series_max s = Ok m →
  Forall (λ kv, kv.2 ≤ m) s ∧ ∃ kv, kv ∈ s ∧ kv.2 = m.
Proof.
  destruct s as [|[k n] rest]; cbn [series_max]; [discriminate|].
  intros [= <-]. destruct (foldl_max_spec rest n) as (Hle & Hall & Hwho).
  split; [by constructor|].
  destruct Hwho as [Heq|(kv & Hin & Hkv)].
  - exists (k, n). split; [by left | done].
  - exists kv. split; [by right | done].
Qed.

(** The count axis ends 40 above the tallest bar: every bar fits under it. *)
Theorem count_axis_covers_bars column title limit chart :
  plot_bar column title limit = Ok chart →
  Forall (λ kv, kv.2 + 40 ≤ count_axis_max chart) (categories chart)
  ∧ ∃ kv, kv ∈ categories chart ∧ count_axis_max chart = kv.2 + 40.
Proof.
  unfold plot_bar.
  destruct (series_max (top_categories column limit)) as [m|e] eqn:Hmax;
    [|discriminate].
  intros [= <-]. cbn [categories count_axis_max].
  apply series_max_spec in Hmax as [Hall (kv & Hin & Hkv)]. split.
  - eapply Forall_impl; [exact Hall|]. simpl. intros; lia.
  - exists kv. split; [done | lia].
Qed.

Lemma present_or_none column : (∀ v, Some v ∉ column) ∨ ∃ v, Some v ∈ column.
Proof.
  induction column as [|x column IH].
  - left. intros v. apply not_elem_of_nil.
  - destruct x as [v|]; [right; exists v; by left|].
    destruct IH as [Hnone|[v Hv]].
    + left. intros v. rewrite not_elem_of_cons. split; [discriminate | apply Hnone].
    + right. exists v. by right.
Qed.

(** With a limit that is not negative, the two bar charts are drawn exactly
    when some cell of the column is filled; for a column of missing cells
    only, [max] of the empty table raises. *)
Theorem bar_charts_need_a_value column title limit :
  0 ≤ limit →
  ((∃ chart, plot_bar column title limit = Ok chart) ↔ ∃ v, Some v ∈ column)
  ∧ ((∃ chart, plot_horizontal_bar column title limit = Ok chart) ↔ ∃ v, Some v ∈ column)
  ∧ ((∀ v, Some v ∉ column) →
       plot_bar column title limit = Raise ValueError
       ∧ plot_horizontal_bar column title limit = Raise ValueError).
Proof.
  intros Hpos. pose proof (top_categories_nil column limit Hpos) as Hnil.
  unfold plot_bar, plot_horizontal_bar.
  destruct (top_categories column limit) as [|[k n] top] eqn:Htop; cbn [series_max].
  - assert (∀ v, Some v ∉ column) as Hnone by (by apply Hnil).
    split; [|split]; [| |done];
      (split; [intros [? ?]; discriminate | intros [v Hv]; by destruct (Hnone v)]).
  - assert (∃ v, Some v ∈ column) as [v Hv].
    { destruct (present_or_none column) as [Hnone|Hsome]; [|done].
      apply Hnil in Hnone. discriminate. }
    split; [|split]; [| |intros Hnone; by destruct (Hnone v)];
      (split; [intros _; by exists v | intros _; by eexists]).
Qed.

(** [plot_horizontal_bar] draws what [plot_bar] draws: the same bars in the
    same order under the same labels and axis limit, each annotation with
    its two coordinates exchanged. *)
Theorem plot_horizontal_bar_transposes column title limit :
  plot_horizontal_bar column title limit =
    match plot_bar column title limit with
    | Ok chart =>
        Ok {| categories := categories chart;
              annotations := transpose <$> annotations chart;
              bars_title := bars_title chart;
              count_axis_max := count_axis_max chart |}
    | Raise e => Raise e
    end.
Proof.
  unfold plot_horizontal_bar, plot_bar.
  destruct (series_max (top_categories column limit)); [|done].
  cbn [categories annotations bars_title count_axis_max]. by rewrite fmap_imap.
Qed.

(** The frequencies handed to the word cloud: one row for each value that
    occurs in the series, with the number of its occurrences, no word
    twice, the most frequent first; missing cells are not counted. *)
Theorem word_cloud_frequencies (series : list (option string)) title :
  let f := frequencies (plot_word_cloud series title) in
  (∀ k n, (k, n) ∈ f ↔ Some k ∈ series ∧ n = count_of k series)
  ∧ NoDup f.*1
  ∧ StronglySorted desc f
  ∧ series_sum f = count_present series.
Proof.
  cbn [plot_word_cloud frequencies]. unfold value_counts.
  assert (sort_values_desc (tally (dropna series)) ≡ₚ tally (dropna series)) as Hperm
    by apply sort_values_desc_perm.
  split; [intros k n; by rewrite Hperm, tally_rows|].
  split; [rewrite Hperm; apply tally_NoDup|].
  split.
  - apply Sorted.Sorted_StronglySorted; [|apply sort_values_desc_sorted].
    intros x y z. unfold desc. lia.
  - rewrite (series_sum_perm _ _ Hperm). apply series_sum_tally.
Qed.

End ChartsMore.

Section ChartsMoreRuns.
Import Py Charts Fixtures.

Lemma plot_donut_chart_slices_witness :
  ∃ p, plot_donut_chart ten_rows "Score" = Ok p
       ∧ sizes p = [3; 7]
       ∧ 3 + 7 = len ten_rows.
Proof.
  refine (plot_donut_chart_slices ten_rows "Score"
            [Some (Num 8); None; Some (Num 7); Some (Num 9); None;
             Some (Num 6); Some (Num 8); None; Some (Num 5); Some (Num 7)]
            _ _ eq_refl).
  - repeat constructor.
  - apply (bool_decide_unpack _). vm_compute. exact I.
Defined.

Lemma plot_donut_chart_unknown_column_witness :
  plot_donut_chart ten_rows "Rank" = Raise KeyError
  ∧ ∃ p c, ("Score", c) ∈ columns ten_rows
           ∧ plot_donut_chart ten_rows "Score" = Ok p
           ∧ sizes p = [count_missing c; len ten_rows - count_missing c].
Proof.
  destruct (plot_donut_chart_unknown_column ten_rows "Rank") as [Hno _].
  destruct (plot_donut_chart_unknown_column ten_rows "Score") as [_ Hyes].
  split.
  - apply Hno. apply (bool_decide_unpack _). vm_compute. exact I.
  - apply Hyes; apply (bool_decide_unpack _); vm_compute; exact I.
Defined.

Lemma top_categories_all_kept_witness :
  top_categories letters 10 = [("a", 50); ("b", 30); ("c", 20); ("d", 10); ("e", 5)]
  ∧ ∀ k n, (k, n) ∈ top_categories letters 10
           ↔ Some k ∈ letters ∧ n = count_of k letters.
Proof.
  refine (top_categories_all_kept letters 10 _). by vm_compute.
Defined.

Lemma top_categories_sum_witness :
  series_sum (top_categories letters 3) = 115 ∧ count_present letters = 115.
Proof.
  split; [|reflexivity].
  refine (top_categories_sum letters 3 _).
  apply (bool_decide_unpack _). vm_compute. exact I.
Defined.

(** Five cells say [Other], three [x], one [y]: with [limit=1] the only bar
    is [Other] with the 4 of [x] and [y]; its own 5 are gone. *)
Lemma top_categories_other_row_witness :
  series_get "Other" (top_categories with_other 1) = 4
  ∧ length (top_categories with_other 1) = 1%nat
  ∧ top_categories letters 3 = [("a", 50); ("b", 30); ("c", 20); ("Other", 15)].
Proof.
  destruct (top_categories_other_row with_other 1 eq_refl) as (Hget & _ & Hlen).
  destruct (top_categories_other_row letters 3 eq_refl) as (_ & Happ & _).
  split; [exact Hget|]. split.
  - apply Hlen. apply (bool_decide_unpack _). vm_compute. exact I.
  - apply Happ. apply (bool_decide_unpack _). vm_compute. exact I.
Defined.

Lemma kept_categories_dominate_witness : count_of "d" letters ≤ 20.
Proof.
  refine (kept_categories_dominate letters 3 "c" 20 "d" _ _ _ _).
  - apply (bool_decide_unpack _). vm_compute. exact I.
  - discriminate.
  - apply (bool_decide_unpack _). vm_compute. exact I.
  - apply (bool_decide_unpack _). vm_compute. exact I.
Defined.

Lemma top_categories_at_most_witness :
  (length (top_categories letters 3) ≤ 4)%nat.
Proof.
  refine (top_categories_at_most letters 3 _). lia.
Defined.

Lemma count_axis_covers_bars_witness :
  Forall (λ kv : string * Z, kv.2 + 40 ≤ 90)
         [("a", 50); ("b", 30); ("c", 20); ("Other", 15)]
  ∧ ∃ kv, kv ∈ [("a", 50); ("b", 30); ("c", 20); ("Other", 15)] ∧ 90 = kv.2 + 40.
Proof.
  exact (count_axis_covers_bars letters "Top" 3
    {| categories := [("a", 50); ("b", 30); ("c", 20); ("Other", 15)];
       annotations := [Text_at 0 (101 # 2) "43%"; Text_at 1 (61 # 2) "26%";
                       Text_at 2 (41 # 2) "17%"; Text_at 3 (31 # 2) "13%"];
       bars_title := "Top";
       count_axis_max := 90 |} eq_refl).
Defined.

Lemma bar_charts_need_a_value_witness :
  plot_bar [None; None] "Top" 10 = Raise ValueError
  ∧ plot_horizontal_bar [None; None] "Top" 10 = Raise ValueError.
Proof.
  destruct (bar_charts_need_a_value [None; None] "Top" 10 ltac:(lia)) as (_ & _ & Hnone).
  apply Hnone. intros v. rewrite !not_elem_of_cons.
  split; [discriminate|]. split; [discriminate | apply not_elem_of_nil].
Defined.

End ChartsMoreRuns.

(* ===================================================================== *)
(** ** The correlation heatmap                                            *)
(* ===================================================================== *)

Section CorrelationFacts.
Import Py Charts Pandas.

Lemma correlations_labels cs : matrix_labels (correlations cs) = cs.*1.
Proof. reflexivity. Qed.

Lemma has_non_numeric_elem data :
  has_non_numeric data = true ↔ ∃ nc, nc ∈ columns data ∧ numeric nc.2 = false.
Proof.
  unfold has_non_numeric. rewrite existsb_exists. split.
  - intros (nc & Hin & Hnc). exists nc. split; [by apply list_elem_of_In|].
    by destruct (numeric nc.2).
  - intros (nc & Hin & Hnc). exists nc. split; [by apply list_elem_of_In|].
    by rewrite Hnc.
Qed.

Lemma NoDup_fst_inj {A} (cs : list (string * A)) (x y : string * A) :
  NoDup cs.*1 → x ∈ cs → y ∈ cs → x.1 = y.1 → x = y.
Proof.
  induction cs as [|z cs IH]; intros Hnd Hx Hy Heq; [by apply elem_of_nil in Hx|].
  rewrite fmap_cons in Hnd. apply NoDup_cons in Hnd as [Hz Hnd].
  apply elem_of_cons in Hx as [->|Hx]; apply elem_of_cons in Hy as [->|Hy].
  - done.
  - destruct Hz. rewrite Heq. by apply list_elem_of_fmap_2.
  - destruct Hz. rewrite <- Heq. by apply list_elem_of_fmap_2.
  - by apply IH.
Qed.

(** C8, in the form that holds: [plot_correlation_matrix] has no guard of
    its own, so a fault of [data.corr()] or of [sns.heatmap] reaches the
    caller, and otherwise the matrix of [data.corr()] is drawn.  For a
    dataset with columns that are not numeric this means: where
    [data.corr()] raises on them (pandas since 2.0) the function raises
    that [ValueError]; where [data.corr()] leaves them out (pandas before
    2.0) and the heatmap returns, the matrix drawn is over the numeric
    columns only, none of the others has a row in it, and it is empty when
    no column is numeric. *)
Theorem plot_correlation_matrix_unguarded :
  (∀ (L : Libraries) data title,
      (∀ e, corr data = Raise e → plot_correlation_matrix data title = Raise e)
      ∧ (∀ m e, corr data = Ok m → heatmap m = Raise e →
                plot_correlation_matrix data title = Raise e)
      ∧ (∀ m, corr data = Ok m → heatmap m = Ok tt →
              plot_correlation_matrix data title = Ok m))
  ∧ (∀ (L : Libraries) data title,
      corr data = corr_all_columns data → has_non_numeric data = true →
      plot_correlation_matrix data title = Raise ValueError)
  ∧ (∀ (L : Libraries) data title,
      corr data = corr_numeric_only data → (∀ m, heatmap m = Ok tt) →
      ∃ m, plot_correlation_matrix data title = Ok m
           ∧ matrix_labels m = (filter (λ nc, numeric nc.2) (columns data)).*1
           ∧ (∀ nc, nc ∈ columns data → numeric nc.2 = false →
                    NoDup (columns data).*1 → nc.1 ∉ matrix_labels m)
           ∧ ((∀ nc, nc ∈ columns data → numeric nc.2 = false) →
              matrix_labels m = [] ∧ matrix_values m = [])).
Proof.
  split; [|split].
  - intros L data title. unfold plot_correlation_matrix. repeat split.
    + by intros e ->.
    + by intros m e -> ->.
    + by intros m -> ->.
  - intros L data title Hcorr Hnon. unfold plot_correlation_matrix.
    rewrite Hcorr. unfold corr_all_columns. by rewrite Hnon.
  - intros L data title Hcorr Hheat. unfold plot_correlation_matrix.
    rewrite Hcorr. unfold corr_numeric_only. rewrite Hheat.
    eexists. split; [done|]. rewrite correlations_labels. split; [done|]. split.
    + intros nc Hin Hnc Hnd Hlabel.
      apply list_elem_of_fmap in Hlabel as (nc' & Hname & Hrow).
      apply list_elem_of_filter in Hrow as [Hnum Hin'].
      assert (nc = nc') as <- by (by apply (NoDup_fst_inj (columns data))).
      by rewrite Hnc in Hnum.
    + intros Hall.
      assert (filter (λ nc, numeric nc.2) (columns data) = []) as ->; [|done].
      induction (columns data) as [|nc cs IH]; [done|].
      rewrite filter_cons. rewrite (Hall nc) by (by left).
      case_decide; [done|]. apply IH. intros nc' Hin. apply Hall. by right.
Qed.

End CorrelationFacts.

Section CorrelationRuns.
Import Py Charts Pandas Fixtures.

(** C8 does not hold where [data.corr()] raises: the ten-row frame has a
    column of text, and under pandas since 2.0 the function raises
    [ValueError] instead of drawing an empty or degenerate matrix. *)
Lemma non_numeric_column_raises :
  has_non_numeric ten_rows = true
  ∧ @plot_correlation_matrix pandas_2 ten_rows "Correlation" = Raise ValueError.
Proof. split; reflexivity. Qed.

Lemma plot_correlation_matrix_unguarded_witness :
  @plot_correlation_matrix pandas_2 ten_rows "Correlation" = Raise ValueError
  ∧ @plot_correlation_matrix pandas_1_strict_heatmap names_only "Correlation"
    = Raise ValueError
  ∧ @plot_correlation_matrix pandas_1 names_only "Correlation"
    = Ok {| matrix_labels := []; matrix_values := [] |}
  ∧ ∃ m, @plot_correlation_matrix pandas_1 ten_rows "Correlation" = Ok m
         ∧ matrix_labels m = ["Score"].
Proof.
  destruct plot_correlation_matrix_unguarded as (Hany & Hraise & Hdrop).
  split; [|split; [|split]].
  - exact (Hraise pandas_2 ten_rows "Correlation" eq_refl eq_refl).
  - destruct (Hany pandas_1_strict_heatmap names_only "Correlation") as (_ & Hheat & _).
    exact (Hheat {| matrix_labels := []; matrix_values := [] |} ValueError
             eq_refl eq_refl).
  - destruct (Hany pandas_1 names_only "Correlation") as (_ & _ & Hok).
    exact (Hok {| matrix_labels := []; matrix_values := [] |} eq_refl eq_refl).
  - destruct (Hdrop pandas_1 ten_rows "Correlation" eq_refl (λ _, eq_refl))
      as (m & Hm & Hlabels & _).
    exists m. split; [exact Hm | exact Hlabels].
Defined.

End CorrelationRuns.
